(** * Face-recognition attendance backend: frame matching and debounced marking

    A shallow embedding of [backend/main.py].  The module-level globals
    ([student_frame_counts], [known_face_encodings], [known_face_metadata])
    and the two SQL tables ([students], [attendance]) form one explicit
    [state] that every endpoint threads through.  An endpoint returns the
    state it leaves behind together with either its JSON response or the
    exception that escaped it.

    The image codec, the face detector/encoder, the row-wise norm behind
    [face_recognition.face_distance] and [round] are third-party code; they
    are the fields of the [Vision] interface.

    Of the exceptions third-party code can raise, one is modelled: OpenCV
    refuses an empty buffer, so an empty upload raises [cv2.error] out of
    [add_student] and [process_frame] before the test for a missing image.

    What the model leaves out:
    - distances are rationals, so only finite (non-NaN) distances are
      covered; for those, comparing with the double [0.55] and with the
      rational [55/100] agree;
    - the norm is total, whereas numpy raises [ValueError] on a store whose
      encodings have unequal widths; so is the resize-and-detect step,
      whereas [cv2.resize] raises on an image that scales down to nothing;
    - the tables fail only on their unique constraints; the autoincrement
      [id] and the [timestamp] columns are not kept; rows are listed in
      insertion order, whereas the queries have no ORDER BY;
    - the two [async] endpoints that touch the globals do not await while
      they do, so calls are taken one after the other. *)

From Stdlib Require Import ZArith QArith List String Strings.Byte Lia.
From stdpp Require Import base option gmap strings list fin_maps.

Local Open Scope string_scope.
Local Open Scope list_scope.
Local Open Scope Z_scope.

(** ** Exceptions and results *)

Inductive exn :=
| CvError
| ValueError
| IndexError
| KeyError (key : string)
| IntegrityError
| HTTPException (status_code : Z) (detail : string).

Inductive result (A : Type) :=
| Ok (a : A)
| Raise (e : exn).
Arguments Ok {A} a.
Arguments Raise {A} e.

Definition is_ok {A : Type} (r : result A) : bool :=
  match r with Ok _ => true | Raise _ => false end.

(** ** Stored embeddings: [tobytes] and [np.frombuffer(_, dtype=np.float64)] *)

(** A float64 is kept as its eight bytes, in buffer order. *)
Inductive float64 := F64 (b0 b1 b2 b3 b4 b5 b6 b7 : byte).

Definition ndarray := list float64.

Definition float64_bytes (x : float64) : list byte :=
  let 'F64 b0 b1 b2 b3 b4 b5 b6 b7 := x in [b0; b1; b2; b3; b4; b5; b6; b7].

Definition tobytes (a : ndarray) : list byte := concat (map float64_bytes a).

(** [None] stands for numpy's [ValueError: buffer size must be a multiple of
    element size]; the empty buffer decodes to the empty array. *)
Fixpoint frombuffer (buf : list byte) : option ndarray :=
  match buf with
  | [] => Some []
  | b0 :: b1 :: b2 :: b3 :: b4 :: b5 :: b6 :: b7 :: rest =>
      match frombuffer rest with
      | Some a => Some (F64 b0 b1 b2 b3 b4 b5 b6 b7 :: a)
      | None => None
      end
  | _ => None
  end.

(** Width of a face embedding produced by the encoder (128 doubles). *)
Definition ENCODING_DIM : nat := 128.
Definition ENCODING_BYTES : nat := 8 * ENCODING_DIM.

(** ** Tables and in-memory records *)

Module Registration.
Record t := mk { student_id : string; student_name : string }.
End Registration.

Module Student.
Record t := mk { student_id : string; student_name : string;
                 encoding_binary : list byte }.
End Student.

(** The dicts [{"name": ..., "id": ...}] of [known_face_metadata]. *)
Module Metadata.
Record t := mk { name : string; id : string }.
End Metadata.

(** (top, right, bottom, left) *)
Definition box : Type := Z * Z * Z * Z.

(** One entry of the ["detected"] list. *)
Module Detected.
Record t := mk { name : string; distance : option Q; bounding_box : box }.
End Detected.

Inductive response :=
| ErrorResponse (error : string)
| MessageResponse (message : string)
| DetectedResponse (detected : list Detected.t)
| ListResponse (items : list (string * string))
| IdsResponse (ids : list string).

Record state := mkState {
  student_frame_counts : gmap string Z;
  known_face_encodings : list ndarray;
  known_face_metadata : list Metadata.t;
  students : list Student.t;
  attendance : list Registration.t
}.

Definition set_counts (m : gmap string Z) (s : state) : state :=
  mkState m (known_face_encodings s) (known_face_metadata s)
          (students s) (attendance s).

Definition set_students (t : list Student.t) (s : state) : state :=
  mkState (student_frame_counts s) (known_face_encodings s)
          (known_face_metadata s) t (attendance s).

Definition set_attendance (t : list Registration.t) (s : state) : state :=
  mkState (student_frame_counts s) (known_face_encodings s)
          (known_face_metadata s) (students s) t.

(** ** Third-party functions *)

Class Vision := {
  image : Type;
  (** What [cv2.imdecode] makes of the bytes: [None] when they are not an
      image. *)
  imdecode : list byte -> option image;
  (** There is no image in an empty buffer; OpenCV does not even answer
      [None] for it, see [cv2_imdecode]. *)
  imdecode_empty : imdecode [] = None;
  (** [face_recognition.face_encodings] on the full-size RGB image. *)
  face_encodings : image -> list ndarray;
  (** resize by 0.25, [face_locations], [face_encodings], zipped. *)
  locate_and_encode : image -> list (box * ndarray);
  (** one row of [np.linalg.norm(known - face, axis=1)]. *)
  linalg_norm : ndarray -> ndarray -> Q;
  (** [round(x, ndigits)]. *)
  round : Q -> Z -> Q
}.

(** [cv2.imdecode(np.frombuffer(contents, np.uint8), cv2.IMREAD_COLOR)]:
    OpenCV asserts that the buffer is not empty and raises [cv2.error] when
    it is; otherwise it answers with the image or with [None]. *)
Definition cv2_imdecode {V : Vision} (contents : list byte)
  : result (option image) :=
  match contents with
  | [] => Raise CvError
  | _ :: _ => Ok (imdecode contents)
  end.

(** ** Constants *)

Definition FRAME_THRESHOLD : Z := 5.
Definition TOLERANCE : Q := 0.55%Q.

(** ** Matching helpers *)

Definition Qltb (x y : Q) : bool := negb (Qle_bool y x).

(** [np.argmin] on a non-empty vector: index of the first smallest entry. *)
Fixpoint argmin_from (best : nat) (best_val : Q) (i : nat) (l : list Q) : nat :=
  match l with
  | [] => best
  | x :: l' =>
      if Qltb x best_val then argmin_from i x (S i) l'
      else argmin_from best best_val (S i) l'
  end.

Definition argmin (l : list Q) : nat :=
  match l with
  | [] => 0%nat
  | x :: l' => argmin_from 0 x 1 l'
  end.

Section Endpoints.
Context {V : Vision}.

(** [face_recognition.face_distance]: empty for an empty store, else one
    distance per enrolled encoding, in order. *)
Definition face_distance (known : list ndarray) (face : ndarray) : list Q :=
  map (fun k => linalg_norm k face) known.

(** ** Table operations *)

(** [db.add(Registration(...)); db.commit()] under the unique constraint on
    [attendance.student_id]; [None] is the failed commit. *)
Definition insert_registration (r : Registration.t) (tbl : list Registration.t)
  : option (list Registration.t) :=
  if existsb (fun r' => String.eqb (Registration.student_id r')
                                   (Registration.student_id r)) tbl
  then None else Some (tbl ++ [r]).

Definition insert_student (r : Student.t) (tbl : list Student.t)
  : option (list Student.t) :=
  if existsb (fun r' => String.eqb (Student.student_id r')
                                   (Student.student_id r)) tbl
  then None else Some (tbl ++ [r]).

Fixpoint delete_first (sid : string) (tbl : list Student.t) : list Student.t :=
  match tbl with
  | [] => []
  | r :: tbl' =>
      if String.eqb (Student.student_id r) sid then tbl'
      else r :: delete_first sid tbl'
  end.

(** ** /add-student *)

Definition add_student (student_name student_id : string) (contents : list byte)
  (s : state) : state * result response :=
  match cv2_imdecode contents with
  | Raise e => (s, Raise e)
  | Ok None => (s, Ok (ErrorResponse "Error. Could not decode the image."))
  | Ok (Some img) =>
      match face_encodings img with
      | [] => (s, Ok (ErrorResponse "Error. No face found in the image."))
      | enc :: _ =>
          let encoding_binary := tobytes enc in
          let student := Student.mk student_id student_name encoding_binary in
          match insert_student student (students s) with
          | None => (s, Raise IntegrityError)
          | Some tbl =>
              (set_students tbl s,
               Ok (MessageResponse ("Student " +:+ student_name +:+ " (ID: "
                                    +:+ student_id +:+ ") uploaded successfully!")))
          end
      end
  end.

(** ** DELETE /students/{student_id} *)

Definition delete_student (student_id : string) (s : state)
  : state * result response :=
  match find (fun r => String.eqb (Student.student_id r) student_id)
             (students s) with
  | None => (s, Raise (HTTPException 404 "Student not found"))
  | Some _ =>
      (set_students (delete_first student_id (students s)) s,
       Ok (MessageResponse ("Student " +:+ student_id +:+ " removed successfully")))
  end.

(** The metadata entry built for a row of [students]. *)
Definition metadata_of (student : Student.t) : Metadata.t :=
  Metadata.mk (Student.student_name student) (Student.student_id student).

(** ** /start-registration *)

(** The loop over [db.query(Student).all()].  A buffer that [frombuffer]
    rejects raises out of the loop and leaves what was loaded so far. *)
Fixpoint load_students (rows : list Student.t) (s : state) : state * result unit :=
  match rows with
  | [] => (s, Ok tt)
  | student :: rest =>
      match frombuffer (Student.encoding_binary student) with
      | None => (s, Raise ValueError)
      | Some encoding =>
          load_students rest
            (mkState
               (<[Student.student_id student := 0]> (student_frame_counts s))
               (known_face_encodings s ++ [encoding])
               (known_face_metadata s ++ [metadata_of student])
               (students s) (attendance s))
      end
  end.

Definition start_registration (s : state) : state * result response :=
  let cleared := mkState ∅ [] [] (students s) [] in
  match load_students (students cleared) cleared with
  | (s', Ok _) => (s', Ok (MessageResponse "Registration started."))
  | (s', Raise e) => (s', Raise e)
  end.

(** ** /students and /attendance *)

Definition get_all_students (s : state) : state * result response :=
  (s, Ok (ListResponse
            (map (fun r => (Student.student_id r, Student.student_name r))
                 (students s)))).

Definition get_attendance (s : state) : state * result response :=
  (s, Ok (IdsResponse (map Registration.student_id (attendance s)))).

(** ** /process-frame *)

(** The body of the [for] loop, for one (location, encoding) pair. *)
Definition process_detection (s : state) (d : box * ndarray)
  : state * result Detected.t :=
  let '((top, right', bottom, left'), face_encoding) := d in
  let bounding_box := (top * 4, right' * 4, bottom * 4, left' * 4) in
  let face_distances := face_distance (known_face_encodings s) face_encoding in
  if (0 <? length face_distances)%nat then
    let best_match_index := argmin face_distances in
    let best := nth best_match_index face_distances 0%Q in
    let current_distance := Some (round best 2) in
    if Qltb best TOLERANCE then
      match known_face_metadata s !! best_match_index with
      | None => (s, Raise IndexError)
      | Some m =>
          let student_name := Metadata.name m in
          let student_id := Metadata.id m in
          match student_frame_counts s !! student_id with
          | None => (s, Raise (KeyError student_id))
          | Some n =>
              let s1 := set_counts (<[student_id := n + 1]> (student_frame_counts s)) s in
              let s2 :=
                if (n + 1 =? FRAME_THRESHOLD)%Z then
                  match insert_registration
                          (Registration.mk student_id student_name)
                          (attendance s1) with
                  | Some tbl => set_attendance tbl s1
                  | None => s1
                  end
                else s1 in
              (s2, Ok (Detected.mk student_name current_distance bounding_box))
          end
      end
    else (s, Ok (Detected.mk "Unknown" current_distance bounding_box))
  else (s, Ok (Detected.mk "Unknown" None bounding_box)).

(** The [for] loop: entries are appended in detection order; an exception
    leaves the loop with the mutations made so far. *)
Fixpoint process_detections (s : state) (ds : list (box * ndarray))
  : state * result (list Detected.t) :=
  match ds with
  | [] => (s, Ok [])
  | d :: rest =>
      match process_detection s d with
      | (s1, Ok entry) =>
          match process_detections s1 rest with
          | (s2, Ok entries) => (s2, Ok (entry :: entries))
          | (s2, Raise e) => (s2, Raise e)
          end
      | (s1, Raise e) => (s1, Raise e)
      end
  end.

Definition process_frame (contents : list byte) (s : state)
  : state * result response :=
  match cv2_imdecode contents with
  | Raise e => (s, Raise e)
  | Ok None => (s, Ok (ErrorResponse "Error. Could not decode the image."))
  | Ok (Some img) =>
      match process_detections s (locate_and_encode img) with
      | (s', Ok detected_students) => (s', Ok (DetectedResponse detected_students))
      | (s', Raise e) => (s', Raise e)
      end
  end.

(** ** Sequences of calls *)

Inductive call :=
| AddStudent (student_name student_id : string) (file : list byte)
| DeleteStudent (student_id : string)
| StartRegistration
| ProcessFrame (file : list byte).

Definition endpoint (c : call) (s : state) : state * result response :=
  match c with
  | AddStudent n i f => add_student n i f s
  | DeleteStudent i => delete_student i s
  | StartRegistration => start_registration s
  | ProcessFrame f => process_frame f s
  end.

(** The state after a sequence of frames, delivered one after the other. *)
Definition run_frames (frames : list (list byte)) (s : state) : state :=
  fold_left (fun st f => fst (process_frame f st)) frames s.

(** A freshly started process has empty globals; the tables are whatever the
    database holds. *)
Definition boot (studs : list Student.t) (att : list Registration.t) : state :=
  mkState ∅ [] [] studs att.

Inductive reachable : state -> Prop :=
| reachable_boot studs att : reachable (boot studs att)
| reachable_call s c : reachable s -> reachable (fst (endpoint c s)).

(** ** Notions used to state the properties *)

(** Both in-memory lists have one entry per enrolled identity, and every
    enrolled id has a counter. *)
Definition store_ok (s : state) : Prop :=
  length (known_face_encodings s) = length (known_face_metadata s) /\
  forall m, m ∈ known_face_metadata s ->
            is_Some (student_frame_counts s !! Metadata.id m).

(** The index, if any, a face is matched at: the [argmin] of its distances
    when that distance is below [TOLERANCE]. *)
Definition best_match (s : state) (face_encoding : ndarray) : option nat :=
  let face_distances := face_distance (known_face_encodings s) face_encoding in
  if (0 <? length face_distances)%nat
     && Qltb (nth (argmin face_distances) face_distances 0%Q) TOLERANCE
  then Some (argmin face_distances) else None.

(** The identity, if any, a face resolves to. *)
Definition matched_id (s : state) (face_encoding : ndarray) : option string :=
  match best_match s face_encoding with
  | Some i => Metadata.id <$> known_face_metadata s !! i
  | None => None
  end.

(** A detection that resolves to identity [X]. *)
Definition qualifying (X : string) (s : state) (d : box * ndarray) : bool :=
  match matched_id s (snd d) with
  | Some i => String.eqb i X
  | None => false
  end.

(** Number of detections of the frame that resolve to [X]. *)
Definition hits (X : string) (s : state) (contents : list byte) : nat :=
  match imdecode contents with
  | None => 0
  | Some img => length (filter (fun d => qualifying X s d = true)
                               (locate_and_encode img))
  end.

(** Number of frames with exactly one detection resolving to [X]. *)
Definition qualifying_frames (X : string) (s : state)
  (frames : list (list byte)) : nat :=
  length (filter (fun f => hits X s f = 1%nat) frames).

(** The attendance rows of identity [X]. *)
Definition records_of (X : string) (tbl : list Registration.t)
  : list Registration.t :=
  filter (fun r => Registration.student_id r = X) tbl.

(** The attendance table agrees with the counters: an identity has one row
    once its counter is at the threshold or beyond, and none before. *)
Definition attendance_ok (s : state) : Prop :=
  forall X,
    length (records_of X (attendance s)) =
    match student_frame_counts s !! X with
    | Some n => if (FRAME_THRESHOLD <=? n)%Z then 1%nat else 0%nat
    | None => 0%nat
    end.

(** Two states that differ at most in the attendance table. *)
Definition same_memory (s1 s2 : state) : Prop :=
  student_frame_counts s1 = student_frame_counts s2 /\
  known_face_encodings s1 = known_face_encodings s2 /\
  known_face_metadata s1 = known_face_metadata s2 /\
  students s1 = students s2.

Definition scale_box (b : box) : box :=
  let '(top, right', bottom, left') := b in
  (top * 4, right' * 4, bottom * 4, left' * 4).

(** What the session controller does with a stored embedding of the wrong
    width, as a policy: the load is aborted, or the identity is left out. *)
Definition width_fault_policy (s : state) : Prop :=
  forall student, student ∈ students s ->
    length (Student.encoding_binary student) <> ENCODING_BYTES ->
    is_ok (snd (start_registration s)) = false \/
    Student.student_id student
      ∉ map Metadata.id (known_face_metadata (fst (start_registration s))).

(** ** Notions for the endpoints taken together *)

(** The state after a sequence of calls, whatever each one answered. *)
Definition run_calls (calls : list call) (s : state) : state :=
  fold_left (fun st c => fst (endpoint c st)) calls s.

(** The two calls that only write the [students] table. *)
Definition is_enrolment_call (c : call) : bool :=
  match c with
  | AddStudent _ _ _ | DeleteStudent _ => true
  | StartRegistration | ProcessFrame _ => false
  end.

(** The unique constraints of the two tables. *)
Definition unique_student_ids (s : state) : Prop :=
  NoDup (map Student.student_id (students s)).

Definition unique_attendance_ids (s : state) : Prop :=
  NoDup (map Registration.student_id (attendance s)).

(** Every attendance row is the id and name of an entry of the store. *)
Definition rows_enrolled (s : state) : Prop :=
  forall r, r ∈ attendance s ->
    Metadata.mk (Registration.student_name r) (Registration.student_id r)
      ∈ known_face_metadata s.

(** What an entry of the response owes to its detection and to the store. *)
Definition entry_of (s : state) (d : box * ndarray) (entry : Detected.t) : Prop :=
  Detected.bounding_box entry = scale_box (fst d) /\
  (Detected.distance entry = None <-> known_face_encodings s = []) /\
  (Detected.name entry = "Unknown" \/
   exists m, m ∈ known_face_metadata s /\ Detected.name entry = Metadata.name m).

End Endpoints.

(** [i] is the first position of a smallest entry of [l]. *)
Definition is_first_argmin (l : list Q) (i : nat) : Prop :=
  (i < length l)%nat /\
  (forall j, (j < length l)%nat -> (nth i l 0 <= nth j l 0)%Q) /\
  (forall j, (j < i)%nat -> (nth i l 0 < nth j l 0)%Q).

(** ** A deterministic stand-in for the vision stack

    An image is its own bytes; a file that starts with byte 254 is not an
    image, nor is the empty file; every byte of the image other than 255 is
    one face, whose encoding is a single double
    starting with that byte; the distance between two encodings is the
    difference of their leading bytes, in hundredths. *)

Definition lead (a : ndarray) : Z :=
  match a with
  | F64 b _ _ _ _ _ _ _ :: _ => Z.of_N (Byte.to_N b)
  | [] => 0
  end.

Definition face_of_byte (b : byte) : ndarray :=
  [F64 b "000"%byte "000"%byte "000"%byte "000"%byte "000"%byte "000"%byte "000"%byte].

Definition faces_of (img : list byte) : list byte :=
  List.filter (fun b => negb (Byte.eqb b "255"%byte)) img.

Definition stub_imdecode (contents : list byte) : option (list byte) :=
  match contents with
  | [] => None
  | b :: _ => if Byte.eqb b "254"%byte then None else Some contents
  end.

(** Round half to even at [ndigits] decimals. *)
Definition round_half_even (x : Q) (ndigits : Z) : Q :=
  let scale := 10 ^ ndigits in
  let num := Qnum x * scale in
  let den := Zpos (Qden x) in
  let q := num / den in
  let r := num mod den in
  let up := if 2 * r <? den then false
            else if den <? 2 * r then true
            else Z.odd q in
  Qmake (if up then q + 1 else q) (Z.to_pos scale).

Definition stub_vision : Vision := {|
  image := list byte;
  imdecode := stub_imdecode;
  imdecode_empty := eq_refl;
  face_encodings := fun img => map face_of_byte (faces_of img);
  locate_and_encode :=
    fun img => map (fun b => ((1, 2, 3, 4), face_of_byte b)) (faces_of img);
  linalg_norm := fun a b => Qmake (Z.abs (lead a - lead b)) 100;
  round := round_half_even
|}.

(** Sample rows and frames. *)
Definition row_A : Student.t :=
  Student.mk "A" "Ann" (tobytes (face_of_byte "000"%byte)).
Definition row_B : Student.t :=
  Student.mk "B" "Bob" (tobytes (face_of_byte "200"%byte)).
Definition short_row : Student.t :=
  Student.mk "C" "Cy" (tobytes (face_of_byte "100"%byte)).
Definition odd_row : Student.t :=
  Student.mk "D" "Di" ["001"%byte; "002"%byte; "003"%byte].

(** One face at distance 0.10 from A's embedding. *)
Definition frame_A : list byte := ["010"%byte].
(** One face at distance 0.05 from B's embedding. *)
Definition frame_B : list byte := ["195"%byte].
(** A face 1.00 away from both. *)
Definition frame_stranger : list byte := ["100"%byte].
(** An image without faces, a file that is not an image, and an upload of
    no bytes at all. *)
Definition frame_empty : list byte := ["255"%byte; "255"%byte].
Definition frame_garbage : list byte := ["254"%byte; "010"%byte].
Definition empty_upload : list byte := [].

(** A session with A and B enrolled, started over a stale attendance row. *)
Definition session_AB : state :=
  fst (start_registration (boot [row_A; row_B] [Registration.mk "A" "Ann"])).

(** Seven faces of A in one image. *)
Definition frame_crowd : list byte := replicate 7 "010"%byte.
(** An image with two faces: the one enrolled is the first. *)
Definition portrait_E : list byte := ["050"%byte; "060"%byte].

(** A at four frames, with an attendance row for A already in the table. *)
Definition conflict_state : state :=
  set_attendance [Registration.mk "A" "Ann"]
    (@run_frames stub_vision (replicate 4 frame_A) session_AB).

(** * Properties *)

(** ** Comparisons and [argmin] *)

Lemma Qltb_lt (x y : Q) : Qltb x y = true <-> (x < y)%Q.
Proof.
  unfold Qltb. rewrite negb_true_iff. split.
  - intros H. apply Qnot_le_lt. intros Hle.
    apply Qle_bool_iff in Hle. congruence.
  - intros H. destruct (Qle_bool y x) eqn:E; [|reflexivity].
    apply Qle_bool_iff in E. exfalso. exact (Qlt_not_le _ _ H E).
Qed.

Lemma Qltb_ge (x y : Q) : Qltb x y = false <-> (y <= x)%Q.
Proof.
  unfold Qltb. rewrite negb_false_iff. apply Qle_bool_iff.
Qed.

(** Scanning from position [i] with candidate [best]: either the candidate
    survives, all of [l] being at least as large, or the answer is the first
    smallest position of [l], strictly below the candidate. *)
Lemma argmin_from_spec (l : list Q) :
  forall best best_val i,
    (argmin_from best best_val i l = best /\
     Forall (fun x => (best_val <= x)%Q) l) \/
    (exists k, argmin_from best best_val i l = (i + k)%nat /\
               (k < length l)%nat /\
               (nth k l 0 < best_val)%Q /\
               Forall (fun x => (nth k l 0 <= x)%Q) l /\
               forall j, (j < k)%nat -> (nth k l 0 < nth j l 0)%Q).
Proof.
  induction l as [|x l IH]; intros best best_val i; simpl.
  - left. split; [reflexivity | constructor].
  - destruct (Qltb x best_val) eqn:E.
    + apply Qltb_lt in E.
      destruct (IH i x (S i)) as [[Hr Hall] | (k & Hr & Hk & Hlt & Hall & Hfirst)].
      * right. exists 0%nat. rewrite Hr. simpl.
        repeat split; [lia | lia | exact E | | intros j Hj; lia].
        constructor; [apply Qle_refl | exact Hall].
      * right. exists (S k). rewrite Hr. simpl.
        repeat split; [lia | lia | eapply Qlt_trans; eassumption | | ].
        -- constructor; [apply Qlt_le_weak; exact Hlt | exact Hall].
        -- intros [|j] Hj; [exact Hlt | apply Hfirst; lia].
    + apply Qltb_ge in E.
      destruct (IH best best_val (S i)) as [[Hr Hall] | (k & Hr & Hk & Hlt & Hall & Hfirst)].
      * left. split; [exact Hr | constructor; assumption].
      * right. exists (S k). rewrite Hr. simpl.
        repeat split; [lia | lia | exact Hlt | | ].
        -- constructor; [| exact Hall].
           apply Qlt_le_weak. eapply Qlt_le_trans; eassumption.
        -- intros [|j] Hj; [| apply Hfirst; lia].
           eapply Qlt_le_trans; eassumption.
Qed.

Lemma Forall_nth_Q (P : Q -> Prop) (l : list Q) (j : nat) :
  Forall P l -> (j < length l)%nat -> P (nth j l 0%Q).
Proof.
  intros H. revert j. induction H as [|x l Hx _ IH]; intros j Hj; simpl in *.
  - lia.
  - destruct j; [exact Hx | apply IH; lia].
Qed.

Lemma argmin_first_min (l : list Q) : l <> [] -> is_first_argmin l (argmin l).
Proof.
  destruct l as [|x l]; [congruence | intros _].
  unfold is_first_argmin, argmin.
  destruct (argmin_from_spec l 0%nat x 1%nat)
    as [[Hr Hall] | (k & Hr & Hk & Hlt & Hall & Hfirst)]; rewrite Hr.
  - repeat split; [simpl; lia | | intros j Hj; lia].
    intros [|j] Hj; simpl in *; [apply Qle_refl |].
    apply (Forall_nth_Q _ _ _ Hall). lia.
  - change (1 + k)%nat with (S k). simpl.
    repeat split; [lia | | ].
    + intros [|j] Hj; [apply Qlt_le_weak; exact Hlt |].
      apply (Forall_nth_Q _ _ _ Hall). lia.
    + intros [|j] Hj; [exact Hlt | apply Hfirst; lia].
Qed.

(** The first smallest position is unique. *)
Lemma is_first_argmin_unique (l : list Q) (i j : nat) :
  is_first_argmin l i -> is_first_argmin l j -> i = j.
Proof.
  intros (Hi & Hmin_i & Hfirst_i) (Hj & Hmin_j & Hfirst_j).
  destruct (lt_eq_lt_dec i j) as [[Hlt | Heq] | Hgt]; [| exact Heq |].
  - exfalso. apply (Qlt_not_le _ _ (Hfirst_j i Hlt)). apply Hmin_i. exact Hj.
  - exfalso. apply (Qlt_not_le _ _ (Hfirst_i j Hgt)). apply Hmin_j. exact Hi.
Qed.

Section Properties.
Context {V : Vision}.

(** ** Decoding the upload *)

Lemma cv2_imdecode_Some (contents : list byte) (img : image) :
  imdecode contents = Some img -> cv2_imdecode contents = Ok (Some img).
Proof.
  destruct contents as [|b contents]; simpl.
  - rewrite imdecode_empty. discriminate.
  - by intros ->.
Qed.

Lemma cv2_imdecode_None (contents : list byte) :
  contents <> [] -> imdecode contents = None -> cv2_imdecode contents = Ok None.
Proof.
  destruct contents as [|b contents]; simpl; [done |]. by intros _ ->.
Qed.

(** The decoder raises on the empty buffer and on it alone, and otherwise
    answers what [imdecode] makes of the bytes. *)
Lemma cv2_imdecode_spec (contents : list byte) :
  match cv2_imdecode contents with
  | Raise e => contents = [] /\ e = CvError /\ imdecode contents = None
  | Ok r => contents <> [] /\ r = imdecode contents
  end.
Proof.
  destruct contents as [|b contents]; simpl.
  - by rewrite imdecode_empty.
  - done.
Qed.

(** ** One detection *)

(** What [process_detection] does, case by case on the match. *)
Lemma process_detection_unmatched (s : state) (b : box) (e : ndarray) :
  best_match s e = None ->
  exists dist,
    process_detection s (b, e) = (s, Ok (Detected.mk "Unknown" dist (scale_box b))) /\
    (known_face_encodings s = [] -> dist = None) /\
    (known_face_encodings s <> [] ->
     dist = Some (round (nth (argmin (face_distance (known_face_encodings s) e))
                             (face_distance (known_face_encodings s) e) 0%Q) 2)).
Proof.
  unfold best_match, process_detection. destruct b as [[[top rgt] bottom] lft].
  simpl. unfold face_distance.
  destruct (known_face_encodings s) as [|k ks] eqn:Ek; simpl.
  - intros _. eexists. split; [reflexivity|]. split; [reflexivity | congruence].
  - destruct (Qltb _ TOLERANCE) eqn:E; [discriminate | intros _].
    eexists. split; [reflexivity|]. split; [discriminate | reflexivity].
Qed.

Lemma process_detection_matched (s : state) (b : box) (e : ndarray) (i : nat) :
  best_match s e = Some i ->
  let best := nth i (face_distance (known_face_encodings s) e) 0%Q in
  process_detection s (b, e) =
    match known_face_metadata s !! i with
    | None => (s, Raise IndexError)
    | Some m =>
        match student_frame_counts s !! Metadata.id m with
        | None => (s, Raise (KeyError (Metadata.id m)))
        | Some n =>
            let s1 := set_counts (<[Metadata.id m := n + 1]> (student_frame_counts s)) s in
            (if (n + 1 =? FRAME_THRESHOLD)%Z then
               match insert_registration
                       (Registration.mk (Metadata.id m) (Metadata.name m))
                       (attendance s1) with
               | Some tbl => set_attendance tbl s1
               | None => s1
               end
             else s1,
             Ok (Detected.mk (Metadata.name m) (Some (round best 2)) (scale_box b)))
        end
    end.
Proof.
  unfold best_match, process_detection. destruct b as [[[top rgt] bottom] lft].
  simpl.
  destruct (0 <? length (face_distance (known_face_encodings s) e))%nat; simpl;
    [| discriminate].
  destruct (Qltb _ TOLERANCE) eqn:E; [| discriminate].
  intros [= <-]. reflexivity.
Qed.

(** The in-memory store and the students table are read-only for a frame. *)
Lemma process_detection_store (s : state) (d : box * ndarray) :
  known_face_encodings (fst (process_detection s d)) = known_face_encodings s /\
  known_face_metadata (fst (process_detection s d)) = known_face_metadata s /\
  students (fst (process_detection s d)) = students s.
Proof.
  destruct d as [b e]. destruct (best_match s e) as [i|] eqn:Eb.
  - rewrite (process_detection_matched s b e i Eb).
    destruct (known_face_metadata s !! i) as [m|]; [| done].
    destruct (student_frame_counts s !! Metadata.id m) as [n|]; [| done].
    cbn zeta. destruct (n + 1 =? FRAME_THRESHOLD)%Z; [| done].
    destruct (insert_registration _ _); done.
  - destruct (process_detection_unmatched s b e Eb) as (dist & -> & _). done.
Qed.

Lemma best_match_store (s s' : state) (e : ndarray) :
  known_face_encodings s' = known_face_encodings s ->
  best_match s' e = best_match s e.
Proof. unfold best_match. intros ->. reflexivity. Qed.

Lemma qualifying_store (X : string) (s s' : state) (d : box * ndarray) :
  known_face_encodings s' = known_face_encodings s ->
  known_face_metadata s' = known_face_metadata s ->
  qualifying X s' d = qualifying X s d.
Proof.
  intros He Hm. unfold qualifying, matched_id.
  rewrite (best_match_store s s' _ He), Hm. reflexivity.
Qed.

(** A detection moves the counter of [X] by one when it resolves to [X],
    and not at all otherwise. *)
Lemma process_detection_counts (X : string) (s : state) (d : box * ndarray) :
  student_frame_counts (fst (process_detection s d)) !! X =
    if qualifying X s d
    then (fun n => n + 1) <$> student_frame_counts s !! X
    else student_frame_counts s !! X.
Proof.
  destruct d as [b e]. unfold qualifying, matched_id. cbn [snd].
  destruct (best_match s e) as [i|] eqn:Eb.
  - rewrite (process_detection_matched s b e i Eb).
    destruct (known_face_metadata s !! i) as [m|]; simpl; [| done].
    destruct (String.eqb_spec (Metadata.id m) X) as [<- | Hne].
    + destruct (student_frame_counts s !! Metadata.id m) as [n|] eqn:En; [| done].
      cbn zeta.
      destruct (n + 1 =? FRAME_THRESHOLD)%Z;
        [destruct (insert_registration _ _) |]; simpl;
        by rewrite lookup_insert_eq.
    + destruct (student_frame_counts s !! Metadata.id m) as [n|] eqn:En; [| done].
      cbn zeta.
      destruct (n + 1 =? FRAME_THRESHOLD)%Z;
        [destruct (insert_registration _ _) |]; simpl;
        by rewrite lookup_insert_ne.
  - destruct (process_detection_unmatched s b e Eb) as (dist & -> & _). done.
Qed.

Lemma best_match_Some (s : state) (e : ndarray) (i : nat) :
  best_match s e = Some i ->
  is_first_argmin (face_distance (known_face_encodings s) e) i /\
  (nth i (face_distance (known_face_encodings s) e) 0 < TOLERANCE)%Q.
Proof.
  unfold best_match.
  destruct (0 <? length (face_distance (known_face_encodings s) e))%nat eqn:El;
    simpl; [| discriminate].
  destruct (Qltb _ TOLERANCE) eqn:E; [| discriminate].
  intros [= <-]. split; [| by apply Qltb_lt].
  apply argmin_first_min. apply Nat.ltb_lt in El.
  destruct (face_distance _ _); simpl in *; [lia | discriminate].
Qed.

Lemma best_match_None (s : state) (e : ndarray) :
  best_match s e = None ->
  known_face_encodings s = [] \/
  (TOLERANCE <= nth (argmin (face_distance (known_face_encodings s) e))
                    (face_distance (known_face_encodings s) e) 0)%Q.
Proof.
  unfold best_match, face_distance.
  destruct (known_face_encodings s) as [|k ks]; [by left | right].
  simpl in H. destruct (Qltb _ TOLERANCE) eqn:E; [discriminate |].
  by apply Qltb_ge.
Qed.

Lemma face_distance_length (known : list ndarray) (e : ndarray) :
  length (face_distance known e) = length known.
Proof. unfold face_distance. apply length_map. Qed.

(** ** The store invariant *)

Lemma process_detection_store_ok (s : state) (d : box * ndarray) :
  store_ok s -> store_ok (fst (process_detection s d)).
Proof.
  intros [Hlen Hkeys].
  destruct (process_detection_store s d) as (He & Hm & _).
  split; [by rewrite He, Hm |].
  intros m Hin. rewrite Hm in Hin.
  rewrite process_detection_counts.
  destruct (qualifying _ s d); [apply fmap_is_Some |]; by apply Hkeys.
Qed.

(** Under the invariant neither the metadata lookup nor the counter
    increment can raise. *)
Lemma process_detection_ok (s : state) (d : box * ndarray) :
  store_ok s -> exists entry, snd (process_detection s d) = Ok entry.
Proof.
  intros [Hlen Hkeys]. destruct d as [b e].
  destruct (best_match s e) as [i|] eqn:Eb.
  - rewrite (process_detection_matched s b e i Eb).
    destruct (best_match_Some s e i Eb) as [(Hi & _) _].
    rewrite face_distance_length, Hlen in Hi.
    destruct (lookup_lt_is_Some_2 _ _ Hi) as [m Hm]. rewrite Hm.
    destruct (Hkeys m (list_elem_of_lookup_2 _ _ _ Hm)) as [n Hn]. rewrite Hn.
    eexists. reflexivity.
  - destruct (process_detection_unmatched s b e Eb) as (dist & -> & _).
    eexists. reflexivity.
Qed.

(** ** The attendance invariant *)

Lemma records_of_nil_existsb (X : string) (tbl : list Registration.t) :
  records_of X tbl = [] ->
  existsb (fun r' => String.eqb (Registration.student_id r') X) tbl = false.
Proof.
  unfold records_of. induction tbl as [|r tbl IH]; [done |].
  rewrite filter_cons. simpl. case_decide as Hr; [discriminate |].
  intros Hnil. rewrite (IH Hnil).
  destruct (String.eqb_spec (Registration.student_id r) X); [contradiction | done].
Qed.

Lemma records_of_snoc (X : string) (tbl : list Registration.t) (r : Registration.t) :
  records_of X (tbl ++ [r]) =
    if decide (Registration.student_id r = X)
    then records_of X tbl ++ [r] else records_of X tbl.
Proof.
  unfold records_of. rewrite filter_app, filter_cons, filter_nil.
  case_decide; [done | by rewrite app_nil_r].
Qed.

Lemma process_detection_attendance_ok (s : state) (d : box * ndarray) :
  attendance_ok s -> attendance_ok (fst (process_detection s d)).
Proof.
  intros Hinv. destruct d as [b e].
  destruct (best_match s e) as [i|] eqn:Eb.
  2:{ by destruct (process_detection_unmatched s b e Eb) as (dist & -> & _). }
  rewrite (process_detection_matched s b e i Eb).
  destruct (known_face_metadata s !! i) as [m|]; [| done].
  destruct (student_frame_counts s !! Metadata.id m) as [n|] eqn:En; [| done].
  cbn zeta. intros X. pose proof (Hinv X) as HX.
  pose proof (Hinv (Metadata.id m)) as Hm. rewrite En in Hm.
  unfold insert_registration, FRAME_THRESHOLD in *. simpl in *.
  destruct (Z.eqb_spec (n + 1) 5) as [H5 | H5].
  - assert (n = 4) as -> by lia. simpl in Hm.
    assert (Hnil : records_of (Metadata.id m) (attendance s) = [])
      by (apply nil_length_inv; exact Hm).
    rewrite (records_of_nil_existsb _ _ Hnil). simpl.
    rewrite records_of_snoc. simpl.
    case_decide as Hid.
    + subst X. rewrite Hnil, lookup_insert_eq. done.
    + rewrite lookup_insert_ne by done. exact HX.
  - simpl. destruct (decide (Metadata.id m = X)) as [<- | Hid].
    + rewrite lookup_insert_eq, Hm.
      destruct (Z.leb_spec 5 n), (Z.leb_spec 5 (n + 1)); (done || lia).
    + rewrite lookup_insert_ne by done. exact HX.
Qed.

(** A detection only ever appends to the attendance table. *)
Lemma process_detection_attendance_prefix (s : state) (d : box * ndarray) :
  attendance s `prefix_of` attendance (fst (process_detection s d)).
Proof.
  destruct d as [b e]. destruct (best_match s e) as [i|] eqn:Eb.
  2:{ by destruct (process_detection_unmatched s b e Eb) as (dist & -> & _). }
  rewrite (process_detection_matched s b e i Eb).
  destruct (known_face_metadata s !! i) as [m|]; [| done].
  destruct (student_frame_counts s !! Metadata.id m) as [n|]; [| done].
  cbn zeta. destruct (n + 1 =? FRAME_THRESHOLD)%Z; [| done].
  unfold insert_registration. simpl.
  destruct (existsb _ _); simpl; [done | by apply prefix_app_r].
Qed.

(** ** A whole frame *)

Lemma process_detections_store (s : state) (ds : list (box * ndarray)) :
  known_face_encodings (fst (process_detections s ds)) = known_face_encodings s /\
  known_face_metadata (fst (process_detections s ds)) = known_face_metadata s /\
  students (fst (process_detections s ds)) = students s.
Proof.
  revert s. induction ds as [|d ds IH]; intros s; simpl; [done |].
  destruct (process_detection_store s d) as (He & Hm & Hs).
  destruct (process_detection s d) as [s1 [entry|ex]]; simpl in *; [| done].
  destruct (IH s1) as (He' & Hm' & Hs').
  destruct (process_detections s1 ds) as [s2 [entries|ex]]; simpl in *;
    by rewrite He', Hm', Hs'.
Qed.

Lemma process_detections_store_ok (s : state) (ds : list (box * ndarray)) :
  store_ok s -> store_ok (fst (process_detections s ds)).
Proof.
  revert s. induction ds as [|d ds IH]; intros s Hok; simpl; [done |].
  pose proof (process_detection_store_ok s d Hok) as H1.
  destruct (process_detection s d) as [s1 [entry|ex]]; simpl in *; [| done].
  specialize (IH s1 H1).
  by destruct (process_detections s1 ds) as [s2 [entries|ex]].
Qed.

Lemma process_detections_ok (s : state) (ds : list (box * ndarray)) :
  store_ok s ->
  exists entries, snd (process_detections s ds) = Ok entries /\
                  length entries = length ds.
Proof.
  revert s. induction ds as [|d ds IH]; intros s Hok; simpl.
  - by exists [].
  - pose proof (process_detection_store_ok s d Hok) as H1.
    destruct (process_detection_ok s d Hok) as [entry He].
    destruct (process_detection s d) as [s1 r]; simpl in *. subst r.
    destruct (IH s1 H1) as (entries & Hr & Hlen).
    destruct (process_detections s1 ds) as [s2 r]; simpl in *. subst r.
    exists (entry :: entries). simpl. by rewrite Hlen.
Qed.

Lemma process_detections_attendance_ok (s : state) (ds : list (box * ndarray)) :
  attendance_ok s -> attendance_ok (fst (process_detections s ds)).
Proof.
  revert s. induction ds as [|d ds IH]; intros s Hok; simpl; [done |].
  pose proof (process_detection_attendance_ok s d Hok) as H1.
  destruct (process_detection s d) as [s1 [entry|ex]]; simpl in *; [| done].
  specialize (IH s1 H1).
  by destruct (process_detections s1 ds) as [s2 [entries|ex]].
Qed.

Lemma process_detections_attendance_prefix (s : state) (ds : list (box * ndarray)) :
  attendance s `prefix_of` attendance (fst (process_detections s ds)).
Proof.
  revert s. induction ds as [|d ds IH]; intros s; simpl; [done |].
  pose proof (process_detection_attendance_prefix s d) as H1.
  destruct (process_detection s d) as [s1 [entry|ex]]; simpl in *; [| done].
  specialize (IH s1).
  destruct (process_detections s1 ds) as [s2 [entries|ex]]; simpl in *;
    by etrans.
Qed.

(** Counters never go down and keys never appear or disappear, whatever the
    state. *)
Lemma process_detections_counts_mono (X : string) (s : state)
  (ds : list (box * ndarray)) :
  match student_frame_counts s !! X with
  | Some n => exists n', student_frame_counts (fst (process_detections s ds)) !! X
                         = Some n' /\ n <= n'
  | None => student_frame_counts (fst (process_detections s ds)) !! X = None
  end.
Proof.
  revert s. induction ds as [|d ds IH]; intros s; simpl.
  - destruct (student_frame_counts s !! X) as [n|]; [| done].
    exists n. split; [done | lia].
  - pose proof (process_detection_counts X s d) as H1.
    destruct (process_detection s d) as [s1 [entry|ex]]; simpl in *.
    + specialize (IH s1).
      destruct (process_detections s1 ds) as [s2 [entries|ex]]; simpl in *;
        rewrite H1 in IH;
        destruct (qualifying X s d), (student_frame_counts s !! X) as [n|];
        simpl in *; try done;
        destruct IH as (n' & Hn' & Hle); exists n'; split; (done || lia).
    + rewrite H1.
      destruct (qualifying X s d), (student_frame_counts s !! X) as [n|];
        simpl; try done; eexists; split; (done || lia).
Qed.

(** Under the store invariant the loop runs to its end, and the counter of
    [X] advances by the number of detections that resolve to [X]. *)
Lemma process_detections_counts (X : string) (s : state)
  (ds : list (box * ndarray)) :
  store_ok s ->
  student_frame_counts (fst (process_detections s ds)) !! X =
    (fun n => n + Z.of_nat (length (filter (fun d => qualifying X s d = true) ds)))
      <$> student_frame_counts s !! X.
Proof.
  revert s. induction ds as [|d ds IH]; intros s Hok; simpl.
  - destruct (student_frame_counts s !! X); simpl; [f_equal; lia | done].
  - pose proof (process_detection_store_ok s d Hok) as H1.
    pose proof (process_detection_counts X s d) as Hc.
    destruct (process_detection_store s d) as (He & Hm & _).
    destruct (process_detection_ok s d Hok) as [entry Hentry].
    destruct (process_detection s d) as [s1 r]; simpl in *. subst r.
    specialize (IH s1 H1).
    destruct (process_detections s1 ds) as [s2 [entries|ex]]; simpl in *;
      rewrite IH, Hc, filter_cons;
      rewrite (list_filter_iff (fun d0 => qualifying X s1 d0 = true)
                               (fun d0 => qualifying X s d0 = true))
        by (intros d0; by rewrite (qualifying_store X s s1 d0 He Hm));
      destruct (qualifying X s d) eqn:Eq; case_decide; try done;
      destruct (student_frame_counts s !! X); simpl; try done;
      f_equal; lia.
Qed.

Lemma process_frame_store (f : list byte) (s : state) :
  known_face_encodings (fst (process_frame f s)) = known_face_encodings s /\
  known_face_metadata (fst (process_frame f s)) = known_face_metadata s /\
  students (fst (process_frame f s)) = students s.
Proof.
  unfold process_frame. destruct (cv2_imdecode f) as [[img|]|ex]; [| done | done].
  pose proof (process_detections_store s (locate_and_encode img)) as H.
  by destruct (process_detections s (locate_and_encode img)) as [s' [l|ex]].
Qed.

Lemma process_frame_store_ok (f : list byte) (s : state) :
  store_ok s -> store_ok (fst (process_frame f s)).
Proof.
  intros Hok. unfold process_frame. destruct (cv2_imdecode f) as [[img|]|ex]; [| done | done].
  pose proof (process_detections_store_ok s (locate_and_encode img) Hok) as H.
  by destruct (process_detections s (locate_and_encode img)) as [s' [l|ex]].
Qed.

Lemma process_frame_attendance_ok (f : list byte) (s : state) :
  attendance_ok s -> attendance_ok (fst (process_frame f s)).
Proof.
  intros Hok. unfold process_frame. destruct (cv2_imdecode f) as [[img|]|ex]; [| done | done].
  pose proof (process_detections_attendance_ok s (locate_and_encode img) Hok) as H.
  by destruct (process_detections s (locate_and_encode img)) as [s' [l|ex]].
Qed.

Lemma process_frame_attendance_prefix (f : list byte) (s : state) :
  attendance s `prefix_of` attendance (fst (process_frame f s)).
Proof.
  unfold process_frame. destruct (cv2_imdecode f) as [[img|]|ex]; [| done | done].
  pose proof (process_detections_attendance_prefix s (locate_and_encode img)) as H.
  by destruct (process_detections s (locate_and_encode img)) as [s' [l|ex]].
Qed.

Lemma process_frame_counts_mono (X : string) (f : list byte) (s : state) :
  match student_frame_counts s !! X with
  | Some n => exists n', student_frame_counts (fst (process_frame f s)) !! X
                         = Some n' /\ n <= n'
  | None => student_frame_counts (fst (process_frame f s)) !! X = None
  end.
Proof.
  unfold process_frame. destruct (cv2_imdecode f) as [[img|]|ex].
  - pose proof (process_detections_counts_mono X s (locate_and_encode img)) as H.
    by destruct (process_detections s (locate_and_encode img)) as [s' [l|ex]].
  - simpl. destruct (student_frame_counts s !! X) as [n|]; [| done].
    exists n. split; [done | lia].
  - simpl. destruct (student_frame_counts s !! X) as [n|]; [| done].
    exists n. split; [done | lia].
Qed.

Lemma process_frame_counts (X : string) (f : list byte) (s : state) :
  store_ok s ->
  student_frame_counts (fst (process_frame f s)) !! X =
    (fun n => n + Z.of_nat (hits X s f)) <$> student_frame_counts s !! X.
Proof.
  intros Hok. unfold process_frame, hits.
  pose proof (cv2_imdecode_spec f) as Hspec.
  destruct (cv2_imdecode f) as [[img|]|ex].
  - destruct Hspec as [_ Himg]. rewrite <- Himg.
    pose proof (process_detections_counts X s (locate_and_encode img) Hok) as H.
    by destruct (process_detections s (locate_and_encode img)) as [s' [l|ex]].
  - destruct Hspec as [_ Himg]. rewrite <- Himg. simpl.
    destruct (student_frame_counts s !! X); simpl; [f_equal; lia | done].
  - destruct Hspec as (_ & _ & Himg). rewrite Himg. simpl.
    destruct (student_frame_counts s !! X); simpl; [f_equal; lia | done].
Qed.

(** Under the store invariant the loop raises nothing of its own: of the
    exceptions the model has, a frame can only end in the decoder's, on the
    empty upload. *)
Lemma process_frame_ok (f : list byte) (s : state) :
  store_ok s ->
  (exists r, snd (process_frame f s) = Ok r) \/
  (f = [] /\ snd (process_frame f s) = Raise CvError).
Proof.
  intros Hok. unfold process_frame.
  pose proof (cv2_imdecode_spec f) as Hspec.
  destruct (cv2_imdecode f) as [[img|]|ex].
  - left. destruct (process_detections_ok s (locate_and_encode img) Hok)
      as (entries & Hr & _).
    destruct (process_detections s (locate_and_encode img)) as [s' r].
    simpl in Hr. subst r. by eexists.
  - left. by eexists.
  - right. by destruct Hspec as (-> & -> & _).
Qed.

Lemma hits_store (X : string) (s s' : state) (f : list byte) :
  known_face_encodings s' = known_face_encodings s ->
  known_face_metadata s' = known_face_metadata s ->
  hits X s' f = hits X s f.
Proof.
  intros He Hm. unfold hits. destruct (imdecode f) as [img|]; [| done].
  f_equal. apply list_filter_iff. intros d.
  by rewrite (qualifying_store X s s' d He Hm).
Qed.

(** ** A sequence of frames *)

Lemma run_frames_cons (f : list byte) (frames : list (list byte)) (s : state) :
  run_frames (f :: frames) s = run_frames frames (fst (process_frame f s)).
Proof. reflexivity. Qed.

Lemma run_frames_app (frames later : list (list byte)) (s : state) :
  run_frames (frames ++ later) s = run_frames later (run_frames frames s).
Proof. unfold run_frames. apply fold_left_app. Qed.

Lemma run_frames_store (frames : list (list byte)) (s : state) :
  known_face_encodings (run_frames frames s) = known_face_encodings s /\
  known_face_metadata (run_frames frames s) = known_face_metadata s /\
  students (run_frames frames s) = students s.
Proof.
  revert s. induction frames as [|f frames IH]; intros s; [done |].
  rewrite run_frames_cons. destruct (IH (fst (process_frame f s))) as (-> & -> & ->).
  apply process_frame_store.
Qed.

Lemma run_frames_store_ok (frames : list (list byte)) (s : state) :
  store_ok s -> store_ok (run_frames frames s).
Proof.
  revert s. induction frames as [|f frames IH]; intros s Hok; [done |].
  rewrite run_frames_cons. by apply IH, process_frame_store_ok.
Qed.

Lemma run_frames_attendance_ok (frames : list (list byte)) (s : state) :
  attendance_ok s -> attendance_ok (run_frames frames s).
Proof.
  revert s. induction frames as [|f frames IH]; intros s Hok; [done |].
  rewrite run_frames_cons. by apply IH, process_frame_attendance_ok.
Qed.

Lemma run_frames_attendance_prefix (frames : list (list byte)) (s : state) :
  attendance s `prefix_of` attendance (run_frames frames s).
Proof.
  revert s. induction frames as [|f frames IH]; intros s; [done |].
  rewrite run_frames_cons. etrans; [apply process_frame_attendance_prefix | apply IH].
Qed.

Lemma run_frames_counts_mono (X : string) (frames : list (list byte)) (s : state) :
  match student_frame_counts s !! X with
  | Some n => exists n', student_frame_counts (run_frames frames s) !! X
                         = Some n' /\ n <= n'
  | None => student_frame_counts (run_frames frames s) !! X = None
  end.
Proof.
  revert s. induction frames as [|f frames IH]; intros s.
  - simpl. destruct (student_frame_counts s !! X) as [n|]; [| done].
    exists n. split; [done | lia].
  - rewrite run_frames_cons.
    pose proof (process_frame_counts_mono X f s) as H1.
    specialize (IH (fst (process_frame f s))).
    destruct (student_frame_counts s !! X) as [n|].
    + destruct H1 as (n1 & Hn1 & Hle). rewrite Hn1 in IH.
      destruct IH as (n' & Hn' & Hle'). exists n'. split; [done | lia].
    + by rewrite H1 in IH.
Qed.

(** With at most one detection of [X] per frame, the counter advances by the
    number of frames that show [X]. *)
Lemma run_frames_counts (X : string) (frames : list (list byte)) (s : state) :
  store_ok s ->
  Forall (fun f => (hits X s f <= 1)%nat) frames ->
  student_frame_counts (run_frames frames s) !! X =
    (fun n => n + Z.of_nat (qualifying_frames X s frames))
      <$> student_frame_counts s !! X.
Proof.
  revert s. induction frames as [|f frames IH]; intros s Hok Hall.
  - unfold qualifying_frames. simpl.
    destruct (student_frame_counts s !! X); simpl; [f_equal; lia | done].
  - rewrite run_frames_cons. inversion Hall as [|? ? Hf Hall']; subst.
    destruct (process_frame_store f s) as (He & Hm & _).
    rewrite IH.
    + rewrite (process_frame_counts X f s Hok).
      unfold qualifying_frames. rewrite filter_cons.
      rewrite (list_filter_iff (fun f0 => hits X (fst (process_frame f s)) f0 = 1%nat)
                               (fun f0 => hits X s f0 = 1%nat))
        by (intros f0; by rewrite (hits_store X s _ f0 He Hm)).
      destruct (student_frame_counts s !! X); simpl; [| done].
      f_equal. case_decide as H1; simpl; lia.
    + by apply process_frame_store_ok.
    + eapply Forall_impl; [exact Hall' |]. intros f0 Hf0. simpl in *.
      by rewrite (hits_store X s _ f0 He Hm).
Qed.

(** ** Decoding stored embeddings *)

Lemma buffer_ind (P : list byte -> Prop) :
  P [] ->
  (forall buf, (0 < length buf < 8)%nat -> P buf) ->
  (forall b0 b1 b2 b3 b4 b5 b6 b7 rest,
      P rest -> P (b0 :: b1 :: b2 :: b3 :: b4 :: b5 :: b6 :: b7 :: rest)) ->
  forall buf, P buf.
Proof.
  intros Hnil Hshort Hstep buf.
  remember (length buf) as n eqn:Hn. revert buf Hn.
  induction n as [n IH] using lt_wf_ind. intros buf Hn.
  destruct buf as [|b0 [|b1 [|b2 [|b3 [|b4 [|b5 [|b6 [|b7 rest]]]]]]]];
    [exact Hnil | apply Hshort; simpl; lia .. |].
  apply Hstep. apply (IH (length rest)); [subst n; simpl; lia | reflexivity].
Qed.

Lemma frombuffer_short (buf : list byte) :
  (0 < length buf < 8)%nat -> frombuffer buf = None.
Proof.
  destruct buf as [|b0 [|b1 [|b2 [|b3 [|b4 [|b5 [|b6 [|b7 rest]]]]]]]];
    simpl; intros H; (reflexivity || lia).
Qed.

Lemma frombuffer_tobytes (a : ndarray) : frombuffer (tobytes a) = Some a.
Proof.
  induction a as [|[b0 b1 b2 b3 b4 b5 b6 b7] a IH]; [reflexivity |].
  unfold tobytes in *. simpl. by rewrite IH.
Qed.

(** Decoding is exact: the array is the buffer, eight bytes per element. *)
Lemma frombuffer_Some (buf : list byte) :
  forall a, frombuffer buf = Some a -> tobytes a = buf.
Proof.
  induction buf as [| buf Hshort | b0 b1 b2 b3 b4 b5 b6 b7 rest IH] using buffer_ind;
    intros a.
  - by intros [= <-].
  - by rewrite (frombuffer_short buf Hshort).
  - simpl. destruct (frombuffer rest) as [a'|]; [| done].
    intros [= <-]. unfold tobytes in *. simpl. by rewrite (IH a' eq_refl).
Qed.

Lemma tobytes_length (a : ndarray) : length (tobytes a) = (8 * length a)%nat.
Proof.
  induction a as [|[b0 b1 b2 b3 b4 b5 b6 b7] a IH]; [reflexivity |].
  unfold tobytes in *. simpl in *. lia.
Qed.

Lemma frombuffer_length (buf : list byte) (a : ndarray) :
  frombuffer buf = Some a -> length buf = (8 * length a)%nat.
Proof. intros H. rewrite <- (frombuffer_Some buf a H). apply tobytes_length. Qed.

(** The only buffers rejected are those whose size is not a multiple of the
    element size. *)
Lemma frombuffer_None (buf : list byte) :
  frombuffer buf = None <-> (length buf mod 8 <> 0)%nat.
Proof.
  induction buf as [| buf Hshort | b0 b1 b2 b3 b4 b5 b6 b7 rest IH] using buffer_ind.
  - simpl. split; [discriminate | intros H; by destruct H].
  - rewrite (frombuffer_short buf Hshort). split; [intros _ | done].
    rewrite Nat.mod_small by lia. lia.
  - change (length (b0 :: b1 :: b2 :: b3 :: b4 :: b5 :: b6 :: b7 :: rest))
      with (8 + length rest)%nat.
    replace ((8 + length rest) mod 8)%nat with (length rest mod 8)%nat
      by (rewrite <- (Nat.Div0.add_mod_idemp_l 8 (length rest) 8);
          reflexivity).
    rewrite <- IH. simpl. destruct (frombuffer rest); split; done.
Qed.

(** ** Loading the store *)

Lemma load_students_spec (rows : list Student.t) :
  forall s,
  exists loaded encs,
    Forall2 (fun r e => frombuffer (Student.encoding_binary r) = Some e) loaded encs /\
    known_face_encodings (fst (load_students rows s)) = known_face_encodings s ++ encs /\
    known_face_metadata (fst (load_students rows s))
      = known_face_metadata s ++ map metadata_of loaded /\
    (forall X, student_frame_counts (fst (load_students rows s)) !! X =
               if decide (X ∈ map Student.student_id loaded) then Some 0
               else student_frame_counts s !! X) /\
    students (fst (load_students rows s)) = students s /\
    attendance (fst (load_students rows s)) = attendance s /\
    ((snd (load_students rows s) = Ok tt /\ loaded = rows) \/
     (snd (load_students rows s) = Raise ValueError /\
      exists bad rest, rows = loaded ++ bad :: rest /\
                       frombuffer (Student.encoding_binary bad) = None)).
Proof.
  induction rows as [|r rows IH]; intros s; simpl.
  - exists [], []. rewrite !app_nil_r. repeat split; try done. by left.
  - destruct (frombuffer (Student.encoding_binary r)) as [e|] eqn:Ee.
    + destruct (IH (mkState (<[Student.student_id r := 0]> (student_frame_counts s))
                            (known_face_encodings s ++ [e])
                            (known_face_metadata s ++ [metadata_of r])
                            (students s) (attendance s)))
        as (loaded & encs & HF & He & Hm & Hc & Hs & Ha & Hr).
      simpl in *. exists (r :: loaded), (e :: encs).
      split; [by constructor |].
      split; [by rewrite He, <- app_assoc |].
      split; [by rewrite Hm, <- app_assoc |].
      split.
      { intros X. rewrite Hc. simpl.
        destruct (decide (X = Student.student_id r)) as [-> | Hne].
        - rewrite lookup_insert_eq.
          rewrite (decide_True (P := _ ∈ _ :: _)) by apply list_elem_of_here.
          by case_decide.
        - rewrite lookup_insert_ne by done.
          destruct (decide (X ∈ map Student.student_id loaded)) as [Hin | Hnin].
          + rewrite decide_True; [done | by apply list_elem_of_further].
          + rewrite decide_False; [done |].
            intros Hin. apply elem_of_cons in Hin as [? | ?]; done. }
      split; [done |]. split; [done |].
      destruct Hr as [[Hok ->] | (Hraise & bad & rest & -> & Hbad)].
      * by left.
      * right. split; [done |]. by exists bad, rest.
    + exists [], []. rewrite !app_nil_r. simpl.
      repeat split; try done.
      right. split; [done |]. by exists r, rows.
Qed.

Lemma start_registration_spec (s : state) :
  exists loaded encs,
    Forall2 (fun r e => frombuffer (Student.encoding_binary r) = Some e) loaded encs /\
    known_face_encodings (fst (start_registration s)) = encs /\
    known_face_metadata (fst (start_registration s)) = map metadata_of loaded /\
    (forall X, student_frame_counts (fst (start_registration s)) !! X =
               if decide (X ∈ map Student.student_id loaded) then Some 0 else None) /\
    students (fst (start_registration s)) = students s /\
    attendance (fst (start_registration s)) = [] /\
    ((snd (start_registration s) = Ok (MessageResponse "Registration started.") /\
      loaded = students s) \/
     (snd (start_registration s) = Raise ValueError /\
      exists bad rest, students s = loaded ++ bad :: rest /\
                       frombuffer (Student.encoding_binary bad) = None)).
Proof.
  unfold start_registration. cbn zeta. cbn [students].
  destruct (load_students_spec (students s) (mkState ∅ [] [] (students s) []))
    as (loaded & encs & HF & He & Hm & Hc & Hs & Ha & Hr).
  exists loaded, encs.
  destruct (load_students (students s) (mkState ∅ [] [] (students s) []))
    as [s' r]. simpl in *.
  assert (Hc' : forall X, student_frame_counts s' !! X =
            if decide (X ∈ map Student.student_id loaded) then Some 0 else None)
    by (intros X; by rewrite Hc, lookup_empty).
  destruct Hr as [[-> ->] | (-> & Hbad)]; simpl;
    (split; [done |]); (split; [done |]); (split; [done |]);
    (split; [done |]); (split; [done |]); (split; [done |]);
    [by left | by right].
Qed.

Lemma start_registration_store_ok (s : state) :
  store_ok (fst (start_registration s)).
Proof.
  destruct (start_registration_spec s)
    as (loaded & encs & HF & He & Hm & Hc & _).
  split.
  - rewrite He, Hm, length_map. symmetry. by eapply Forall2_length.
  - intros m Hin. rewrite Hm in Hin.
    apply list_elem_of_In, in_map_iff in Hin as (r & <- & Hr).
    rewrite Hc. rewrite decide_True; [by eexists |].
    apply list_elem_of_In, in_map_iff. by exists r.
Qed.

Lemma start_registration_attendance_ok (s : state) :
  attendance_ok (fst (start_registration s)).
Proof.
  destruct (start_registration_spec s)
    as (loaded & encs & _ & _ & _ & Hc & _ & Ha & _).
  intros X. rewrite Ha, Hc. by case_decide.
Qed.

(** ** Every reachable state satisfies the store invariant *)

Lemma endpoint_store_ok (c : call) (s : state) :
  store_ok s -> store_ok (fst (endpoint c s)).
Proof.
  intros Hok. destruct c as [n i f | i | | f]; simpl.
  - unfold add_student. destruct (cv2_imdecode f) as [[img|]|ex]; [| done | done].
    destruct (face_encodings img) as [|enc encs]; [done |].
    by destruct (insert_student _ _).
  - unfold delete_student. by destruct (find _ _).
  - apply start_registration_store_ok.
  - by apply process_frame_store_ok.
Qed.

Lemma reachable_store_ok (s : state) : reachable s -> store_ok s.
Proof.
  induction 1 as [studs att | s c _ IH].
  - split; [done |]. intros m Hin. by apply elem_of_nil in Hin.
  - by apply endpoint_store_ok.
Qed.

Lemma records_of_prefix_same_length (X : string) (t1 t2 : list Registration.t) :
  t1 `prefix_of` t2 ->
  length (records_of X t2) = length (records_of X t1) ->
  records_of X t2 = records_of X t1.
Proof.
  intros [k ->]. unfold records_of. rewrite filter_app, length_app.
  intros Hlen. assert (Hk : filter (fun r => Registration.student_id r = X) k = [])
    by (apply nil_length_inv; lia).
  by rewrite Hk, app_nil_r.
Qed.

(** * The claims *)

(** C1. In a session (any frames delivered after [start_registration]) an
    identity has at most one attendance row; it has exactly one as soon as
    its counter is at [FRAME_THRESHOLD] or beyond, none before, and any
    further frames leave that row as the only one. *)
Theorem one_record_per_identity_per_session
  (s0 : state) (frames later : list (list byte)) (X : string) :
  let s := run_frames frames (fst (start_registration s0)) in
  (length (records_of X (attendance s)) <= 1)%nat /\
  (forall n, student_frame_counts s !! X = Some n -> FRAME_THRESHOLD <= n ->
     length (records_of X (attendance s)) = 1%nat /\
     records_of X (attendance (run_frames later s)) = records_of X (attendance s)) /\
  (forall n, student_frame_counts s !! X = Some n -> n < FRAME_THRESHOLD ->
     records_of X (attendance s) = []) /\
  (student_frame_counts s !! X = None -> records_of X (attendance s) = []).
Proof.
  intros s.
  assert (Hatt : attendance_ok s)
    by apply run_frames_attendance_ok, start_registration_attendance_ok.
  pose proof (Hatt X) as HX. unfold FRAME_THRESHOLD in *.
  split; [| split; [| split]].
  - rewrite HX. destruct (student_frame_counts s !! X) as [n|]; [| lia].
    destruct (5 <=? n); lia.
  - intros n Hn Hge. rewrite Hn in HX.
    destruct (Z.leb_spec 5 n); [| lia]. split; [exact HX |].
    apply records_of_prefix_same_length; [apply run_frames_attendance_prefix |].
    rewrite HX.
    pose proof (run_frames_attendance_ok later s Hatt X) as HX'.
    pose proof (run_frames_counts_mono X later s) as Hmono.
    rewrite Hn in Hmono. destruct Hmono as (n' & Hn' & Hle).
    rewrite Hn' in HX'. unfold FRAME_THRESHOLD in HX'.
    destruct (Z.leb_spec 5 n'); [exact HX' | lia].
  - intros n Hn Hlt. rewrite Hn in HX.
    destruct (Z.leb_spec 5 n); [lia |]. by apply nil_length_inv.
  - intros Hn. rewrite Hn in HX. by apply nil_length_inv.
Qed.

(** C8. Not so for an upload of no bytes: OpenCV raises on the empty
    buffer before [process_frame] tests for a missing image, so the caller
    gets [cv2.error] where the claim promises the frame-level error.  Bytes
    that are there and do not decode are answered with the decode error.  In
    both cases the whole state (counters, store, tables) is left as it
    was. *)
Theorem empty_upload_raises (s : state) :
  process_frame [] s = (s, Raise CvError) /\
  (forall contents,
     imdecode contents = None ->
     fst (process_frame contents s) = s /\
     (contents <> [] ->
      process_frame contents s
        = (s, Ok (ErrorResponse "Error. Could not decode the image.")))).
Proof.
  split; [reflexivity |]. intros contents Hnone.
  unfold process_frame. pose proof (cv2_imdecode_spec contents) as Hspec.
  destruct (cv2_imdecode contents) as [[img|]|ex].
  - destruct Hspec as [_ Himg]. congruence.
  - done.
  - destruct Hspec as (-> & _). done.
Qed.

(** C9. A frame in which no face is detected leaves every counter and the
    attendance table (indeed the whole state) unchanged and answers with an
    empty [detected] list. *)
Theorem frame_without_detections (contents : list byte) (img : image) (s : state) :
  imdecode contents = Some img ->
  locate_and_encode img = [] ->
  process_frame contents s = (s, Ok (DetectedResponse [])) /\
  student_frame_counts (fst (process_frame contents s)) = student_frame_counts s /\
  attendance (fst (process_frame contents s)) = attendance s.
Proof.
  intros Hd Hl. unfold process_frame.
  rewrite (cv2_imdecode_Some _ _ Hd), Hl. simpl. done.
Qed.

(** C3. While the store of enrolled encodings is empty, every detection is
    reported as "Unknown" with no distance and the state, counters
    included, is untouched; so is it for a whole frame. *)
Theorem empty_store_resolves_unknown (s : state) :
  known_face_encodings s = [] ->
  (forall b e,
     process_detection s (b, e)
       = (s, Ok (Detected.mk "Unknown" None (scale_box b)))) /\
  (forall contents img,
     imdecode contents = Some img ->
     process_frame contents s
       = (s, Ok (DetectedResponse
                   (map (fun d => Detected.mk "Unknown" None (scale_box (fst d)))
                        (locate_and_encode img))))).
Proof.
  intros Hempty.
  assert (Hdet : forall b e,
    process_detection s (b, e) = (s, Ok (Detected.mk "Unknown" None (scale_box b)))).
  { intros b e.
    assert (Hb : best_match s e = None) by (unfold best_match; by rewrite Hempty).
    destruct (process_detection_unmatched s b e Hb) as (dist & -> & Hnone & _).
    by rewrite (Hnone Hempty). }
  split; [exact Hdet |].
  intros contents img Hd. unfold process_frame.
  rewrite (cv2_imdecode_Some _ _ Hd).
  induction (locate_and_encode img) as [|[b e] ds IH]; [done |].
  cbn [process_detections map fst]. rewrite Hdet.
  destruct (process_detections s ds) as [s' [entries|ex]];
    by inversion IH.
Qed.

(** C10. In every state reachable from a fresh process by any sequence of
    endpoint calls, the encodings list and the metadata list have the same
    length and every id of the metadata list is a key of the counter map;
    hence, for a matched face, the metadata lookup at the argmin index and
    the counter lookup succeed, and [process_frame] ends neither in
    [IndexError] nor in [KeyError]. *)
Theorem reachable_store_invariant (s : state) :
  reachable s ->
  length (known_face_encodings s) = length (known_face_metadata s) /\
  (forall m, m ∈ known_face_metadata s ->
             is_Some (student_frame_counts s !! Metadata.id m)) /\
  (forall e i, best_match s e = Some i ->
     exists m n, known_face_metadata s !! i = Some m /\
                 student_frame_counts s !! Metadata.id m = Some n) /\
  (forall contents,
     snd (process_frame contents s) <> Raise IndexError /\
     forall key, snd (process_frame contents s) <> Raise (KeyError key)).
Proof.
  intros Hreach. pose proof (reachable_store_ok s Hreach) as Hok.
  destruct Hok as [Hlen Hkeys] eqn:E. clear E.
  split; [exact Hlen |]. split; [exact Hkeys |]. split.
  - intros e i Hb. destruct (best_match_Some s e i Hb) as [(Hi & _) _].
    rewrite face_distance_length, Hlen in Hi.
    destruct (lookup_lt_is_Some_2 _ _ Hi) as [m Hm].
    destruct (Hkeys m (list_elem_of_lookup_2 _ _ _ Hm)) as [n Hn].
    by exists m, n.
  - intros contents.
    destruct (process_frame_ok contents s (conj Hlen Hkeys))
      as [[r Hr] | [_ Hr]]; rewrite Hr; done.
Qed.

(** C2. With a non-empty store, a detection is resolved at the first index of
    least distance: to that enrolled identity (whose counter it advances)
    when the least distance is strictly below [TOLERANCE], and to "Unknown",
    with no effect on the state, otherwise; in both cases the entry carries
    the least distance, rounded to two digits. *)
Theorem nearest_identity_below_tolerance (s : state) (b : box) (e : ndarray) :
  known_face_encodings s <> [] ->
  store_ok s ->
  let face_distances := face_distance (known_face_encodings s) e in
  exists i m s' entry,
    is_first_argmin face_distances i /\
    known_face_metadata s !! i = Some m /\
    process_detection s (b, e) = (s', Ok entry) /\
    Detected.distance entry = Some (round (nth i face_distances 0%Q) 2) /\
    Detected.bounding_box entry = scale_box b /\
    ((nth i face_distances 0 < TOLERANCE)%Q ->
       Detected.name entry = Metadata.name m /\
       student_frame_counts s' !! Metadata.id m
         = (fun n => n + 1) <$> student_frame_counts s !! Metadata.id m) /\
    ((TOLERANCE <= nth i face_distances 0)%Q ->
       Detected.name entry = "Unknown" /\ s' = s).
Proof.
  intros Hne [Hlen Hkeys] ds.
  assert (Hds : ds <> []).
  { subst ds. unfold face_distance. by destruct (known_face_encodings s). }
  pose proof (argmin_first_min ds Hds) as Hfirst.
  assert (Hi : (argmin ds < length (known_face_metadata s))%nat).
  { destruct Hfirst as (Hi & _). subst ds.
    by rewrite face_distance_length, Hlen in Hi. }
  destruct (lookup_lt_is_Some_2 _ _ Hi) as [m Hm].
  destruct (Hkeys m (list_elem_of_lookup_2 _ _ _ Hm)) as [n Hn].
  exists (argmin ds), m.
  destruct (Qltb (nth (argmin ds) ds 0%Q) TOLERANCE) eqn:E.
  - assert (Hb : best_match s e = Some (argmin ds)).
    { unfold best_match. fold ds. rewrite E.
      destruct ds; [done | reflexivity]. }
    pose proof (process_detection_matched s b e _ Hb) as Hp.
    pose proof (process_detection_counts (Metadata.id m) s (b, e)) as Hc.
    unfold qualifying, matched_id in Hc. cbn [snd] in Hc.
    rewrite Hb, Hm in Hc. cbn [fmap option_fmap option_map] in Hc.
    rewrite String.eqb_refl in Hc.
    rewrite Hm, Hn in Hp. cbn zeta in Hp. rewrite Hp in Hc. cbn [fst] in Hc.
    eexists _, _. split; [exact Hfirst |]. split; [exact Hm |].
    split; [exact Hp |]. split; [reflexivity |]. split; [reflexivity |].
    split; [intros _; split; [reflexivity | exact Hc] |].
    intros Hge. apply Qltb_lt in E. exfalso. exact (Qlt_not_le _ _ E Hge).
  - assert (Hb : best_match s e = None).
    { unfold best_match. fold ds. rewrite E. by rewrite andb_false_r. }
    destruct (process_detection_unmatched s b e Hb) as (dist & Hp & _ & Hdist).
    rewrite (Hdist Hne) in Hp. fold ds in Hp.
    eexists _, _. split; [exact Hfirst |]. split; [exact Hm |].
    split; [exact Hp |]. split; [reflexivity |]. split; [reflexivity |].
    split; [| done].
    intros Hlt. apply Qltb_ge in E. exfalso. exact (Qlt_not_le _ _ Hlt E).
Qed.

(** C4. In a session whose frames each show identity [X] at most once, the
    counter of [X] after any number of frames is the number of frames that
    showed [X]; so it equals [FRAME_THRESHOLD] exactly when five such frames
    have been delivered.  A detection resolving to [X] adds exactly one, any
    other detection leaves the counter alone, and no frame lowers it. *)
Theorem debounce_counter_counts_frames
  (s0 : state) (frames : list (list byte)) (X : string) :
  let session := fst (start_registration s0) in
  is_Some (student_frame_counts session !! X) ->
  Forall (fun f => (hits X session f <= 1)%nat) frames ->
  (forall k,
     student_frame_counts (run_frames (take k frames) session) !! X
       = Some (Z.of_nat (qualifying_frames X session (take k frames))) /\
     (student_frame_counts (run_frames (take k frames) session) !! X
        = Some FRAME_THRESHOLD
      <-> qualifying_frames X session (take k frames) = Z.to_nat FRAME_THRESHOLD)) /\
  (forall s d,
     student_frame_counts (fst (process_detection s d)) !! X =
       if qualifying X s d
       then (fun n => n + 1) <$> student_frame_counts s !! X
       else student_frame_counts s !! X) /\
  (forall s f n,
     student_frame_counts s !! X = Some n ->
     exists n', student_frame_counts (fst (process_frame f s)) !! X = Some n' /\
                n <= n').
Proof.
  intros session [n0 Hn0] Hall.
  assert (H0 : student_frame_counts session !! X = Some 0).
  { destruct (start_registration_spec s0) as (loaded & encs & _ & _ & _ & Hc & _).
    fold session in Hc. rewrite Hc in Hn0 |- *. by case_decide. }
  split; [| split].
  - intros k.
    assert (Hk : student_frame_counts (run_frames (take k frames) session) !! X
                 = Some (Z.of_nat (qualifying_frames X session (take k frames)))).
    { rewrite run_frames_counts.
      - rewrite H0. simpl. f_equal.
      - apply start_registration_store_ok.
      - by apply Forall_take. }
    split; [exact Hk |]. rewrite Hk. unfold FRAME_THRESHOLD.
    split; [intros [= H5]; lia | intros ->; reflexivity].
  - intros s d. apply process_detection_counts.
  - intros s f n Hn. pose proof (process_frame_counts_mono X f s) as H.
    by rewrite Hn in H.
Qed.

(** C5. When [start_registration] returns, the store holds the decoded
    embedding and the metadata of every row of [students], in order; the
    counter map has exactly the stored ids as keys, all at 0; the attendance
    table is empty; and the next frame counts every identity from 0,
    whatever had been recorded before. *)
Theorem start_registration_resets (s s' : state) (r : response) :
  start_registration s = (s', Ok r) ->
  r = MessageResponse "Registration started." /\
  Forall2 (fun st e => frombuffer (Student.encoding_binary st) = Some e)
          (students s) (known_face_encodings s') /\
  known_face_metadata s' = map metadata_of (students s) /\
  (forall X, student_frame_counts s' !! X =
             if decide (X ∈ map Student.student_id (students s))
             then Some 0 else None) /\
  attendance s' = [] /\
  students s' = students s /\
  (forall X f, X ∈ map Student.student_id (students s) ->
     student_frame_counts (fst (process_frame f s')) !! X
       = Some (Z.of_nat (hits X s' f))).
Proof.
  intros Hstart.
  destruct (start_registration_spec s)
    as (loaded & encs & HF & He & Hm & Hc & Hs & Ha & Hr).
  pose proof (start_registration_store_ok s) as Hok.
  rewrite Hstart in *. simpl in *.
  destruct Hr as [[[= ->] ->] | [[=] _]]. subst encs.
  repeat split; try done.
  intros X f HX. rewrite (process_frame_counts X f s' Hok), Hc.
  rewrite decide_True by done. simpl. f_equal.
Qed.

Lemma process_detection_same_memory (s1 s2 : state) (d : box * ndarray) :
  same_memory s1 s2 ->
  snd (process_detection s1 d) = snd (process_detection s2 d) /\
  same_memory (fst (process_detection s1 d)) (fst (process_detection s2 d)).
Proof.
  intros (Hc & He & Hm & Hs). destruct d as [b e].
  pose proof (best_match_store s2 s1 e He) as Hb.
  destruct (best_match s2 e) as [i|] eqn:Eb.
  - rewrite (process_detection_matched s1 b e i Hb),
            (process_detection_matched s2 b e i Eb).
    rewrite He, Hm, Hc.
    destruct (known_face_metadata s2 !! i) as [m|]; [| done].
    destruct (student_frame_counts s2 !! Metadata.id m) as [n|]; [| done].
    cbn zeta. split; [done |].
    destruct (n + 1 =? FRAME_THRESHOLD)%Z;
      repeat (destruct (insert_registration _ _)); done.
  - destruct (process_detection_unmatched s1 b e Hb) as (d1 & -> & H1 & H1').
    destruct (process_detection_unmatched s2 b e Eb) as (d2 & -> & H2 & H2').
    split; [| done]. simpl. rewrite He in H1, H1'.
    destruct (known_face_encodings s2) as [|k ks] eqn:Ek.
    + by rewrite H1, H2.
    + by rewrite H1', H2'.
Qed.

Lemma process_detections_same_memory (s1 s2 : state) (ds : list (box * ndarray)) :
  same_memory s1 s2 ->
  snd (process_detections s1 ds) = snd (process_detections s2 ds) /\
  same_memory (fst (process_detections s1 ds)) (fst (process_detections s2 ds)).
Proof.
  revert s1 s2. induction ds as [|d ds IH]; intros s1 s2 Hsame; [done |].
  cbn [process_detections].
  destruct (process_detection_same_memory s1 s2 d Hsame) as [Hr Hs].
  destruct (process_detection s1 d) as [s1' r1],
           (process_detection s2 d) as [s2' r2]. simpl in *. subst r2.
  destruct r1 as [entry|ex]; [| done].
  destruct (IH s1' s2' Hs) as [Hr' Hs'].
  destruct (process_detections s1' ds) as [s1'' r1],
           (process_detections s2' ds) as [s2'' r2]. simpl in *. subst r2.
  by destruct r1.
Qed.

(** C6. Whatever the attendance table holds, hence whichever inserts fail,
    a frame is processed to its end: the response lists one entry per
    detection and is the same as with any other table, as are the counters;
    and at a threshold crossing whose insert fails, the table is left as it
    was while the entry and the counter are as usual. *)
Theorem failed_insert_is_absorbed (s : state) (contents : list byte) (img : image) :
  store_ok s ->
  imdecode contents = Some img ->
  (exists entries,
     length entries = length (locate_and_encode img) /\
     forall tbl,
       snd (process_frame contents (set_attendance tbl s))
         = Ok (DetectedResponse entries) /\
       student_frame_counts (fst (process_frame contents (set_attendance tbl s)))
         = student_frame_counts (fst (process_frame contents s))) /\
  (forall b e i m n,
     best_match s e = Some i ->
     known_face_metadata s !! i = Some m ->
     student_frame_counts s !! Metadata.id m = Some n ->
     n + 1 = FRAME_THRESHOLD ->
     insert_registration (Registration.mk (Metadata.id m) (Metadata.name m))
                         (attendance s) = None ->
     process_detection s (b, e) =
       (set_counts (<[Metadata.id m := n + 1]> (student_frame_counts s)) s,
        Ok (Detected.mk (Metadata.name m)
              (Some (round (nth i (face_distance (known_face_encodings s) e) 0%Q) 2))
              (scale_box b)))).
Proof.
  intros Hok Hd. split.
  - destruct (process_detections_ok s (locate_and_encode img) Hok)
      as (entries & Hr & Hlen).
    exists entries. split; [exact Hlen |]. intros tbl.
    assert (Hsame : same_memory (set_attendance tbl s) s) by done.
    destruct (process_detections_same_memory _ _ (locate_and_encode img) Hsame)
      as [Hr' (Hc & _)].
    unfold process_frame. rewrite (cv2_imdecode_Some _ _ Hd).
    rewrite Hr in Hr'.
    destruct (process_detections (set_attendance tbl s) (locate_and_encode img))
      as [s1 r1],
      (process_detections s (locate_and_encode img)) as [s2 r2].
    simpl in *. subst r1 r2. done.
  - intros b e i m n Hb Hm Hn H5 Hins.
    rewrite (process_detection_matched s b e i Hb), Hm, Hn. cbn zeta.
    apply Z.eqb_eq in H5. rewrite H5.
    change (attendance (set_counts _ s)) with (attendance s). by rewrite Hins.
Qed.

Lemma load_students_all (rows : list Student.t) :
  forall s,
    Forall (fun st => is_Some (frombuffer (Student.encoding_binary st))) rows ->
    snd (load_students rows s) = Ok tt.
Proof.
  induction rows as [|r rows IH]; intros s Hall; [done |].
  inversion Hall as [|? ? [e He] Hall']; subst. simpl. rewrite He. by apply IH.
Qed.

Lemma load_students_abort (loaded : list Student.t) (bad : Student.t)
  (rest : list Student.t) :
  forall s,
    Forall (fun st => is_Some (frombuffer (Student.encoding_binary st))) loaded ->
    frombuffer (Student.encoding_binary bad) = None ->
    load_students (loaded ++ bad :: rest) s
      = (fst (load_students loaded s), Raise ValueError).
Proof.
  induction loaded as [|r loaded IH]; intros s Hall Hbad; simpl.
  - by rewrite Hbad.
  - inversion Hall as [|? ? [e He] Hall']; subst. rewrite He. by apply IH.
Qed.

Lemma multiple_of_8_decodes (rows : list Student.t) :
  Forall (fun st => (length (Student.encoding_binary st) mod 8 = 0)%nat) rows ->
  Forall (fun st => is_Some (frombuffer (Student.encoding_binary st))) rows.
Proof.
  intros Hall. eapply Forall_impl; [exact Hall |]. intros st Hst. simpl in Hst.
  destruct (frombuffer (Student.encoding_binary st)) eqn:E; [by eexists |].
  apply frombuffer_None in E. contradiction.
Qed.

Lemma loaded_prefix_spec (loaded : list Student.t) (s : state) :
  Forall (fun st => is_Some (frombuffer (Student.encoding_binary st))) loaded ->
  known_face_metadata (fst (load_students loaded s))
    = known_face_metadata s ++ map metadata_of loaded /\
  exists encs,
    known_face_encodings (fst (load_students loaded s))
      = known_face_encodings s ++ encs /\
    Forall2 (fun st e => tobytes e = Student.encoding_binary st) loaded encs.
Proof.
  intros Hall.
  destruct (load_students_spec loaded s)
    as (loaded' & encs & HF & He & Hm & _ & _ & _ & Hr).
  rewrite (load_students_all loaded s Hall) in Hr.
  destruct Hr as [[_ ->] | [[=] _]].
  split; [exact Hm |]. exists encs. split; [exact He |].
  eapply Forall2_impl; [exact HF |]. intros st e Hdec. simpl in Hdec.
  by apply frombuffer_Some.
Qed.

(** C7, as the code has it.  The load makes no check of the vector width.
    A stored embedding whose byte length is a multiple of 8 is decoded, eight
    bytes per element, and loaded, whatever its width.  One whose byte length
    is not a multiple of 8 aborts the load with [ValueError] at that row:
    the rows before it stay loaded, the rows after it are not. *)
Theorem load_checks_element_size_only (s : state) :
  (Forall (fun st => (length (Student.encoding_binary st) mod 8 = 0)%nat)
          (students s) ->
   snd (start_registration s) = Ok (MessageResponse "Registration started.") /\
   known_face_metadata (fst (start_registration s))
     = map metadata_of (students s) /\
   Forall2 (fun st e => tobytes e = Student.encoding_binary st)
           (students s) (known_face_encodings (fst (start_registration s)))) /\
  (forall loaded bad rest,
     students s = loaded ++ bad :: rest ->
     Forall (fun st => (length (Student.encoding_binary st) mod 8 = 0)%nat) loaded ->
     (length (Student.encoding_binary bad) mod 8 <> 0)%nat ->
     snd (start_registration s) = Raise ValueError /\
     known_face_metadata (fst (start_registration s)) = map metadata_of loaded /\
     Forall2 (fun st e => tobytes e = Student.encoding_binary st)
             loaded (known_face_encodings (fst (start_registration s)))).
Proof.
  split.
  - intros Hall. apply multiple_of_8_decodes in Hall.
    unfold start_registration. cbn zeta. cbn [students].
    pose proof (load_students_all (students s)
                  (mkState ∅ [] [] (students s) []) Hall) as Hr.
    destruct (loaded_prefix_spec (students s)
                (mkState ∅ [] [] (students s) []) Hall)
      as (Hm & encs & He & HF).
    destruct (load_students (students s) (mkState ∅ [] [] (students s) []))
      as [s' r]. simpl in *. subst r. simpl.
    split; [done |]. split; [done |]. by rewrite He.
  - intros loaded bad rest Hrows Hall Hbad.
    apply multiple_of_8_decodes in Hall. apply frombuffer_None in Hbad.
    unfold start_registration. cbn zeta. cbn [students]. rewrite Hrows.
    rewrite (load_students_abort loaded bad rest _ Hall Hbad).
    destruct (loaded_prefix_spec loaded
                (mkState ∅ [] [] (loaded ++ bad :: rest) []) Hall)
      as (Hm & encs & He & HF).
    cbn [fst snd]. split; [done |]. split; [done |]. by rewrite He.
Qed.

End Properties.

(** * The properties at work on the stand-in *)

(** Five frames showing A commit one row; two more leave it alone. *)
Lemma one_record_per_identity_per_session_witness :
  let s := @run_frames stub_vision (replicate 5 frame_A) session_AB in
  length (records_of "A" (attendance s)) = 1%nat /\
  records_of "A" (attendance (@run_frames stub_vision [frame_A; frame_A] s))
    = records_of "A" (attendance s).
Proof.
  intros s.
  destruct (@one_record_per_identity_per_session stub_vision
              (boot [row_A; row_B] [Registration.mk "A" "Ann"])
              (replicate 5 frame_A) [frame_A; frame_A] "A")
    as (_ & Hcommitted & _).
  apply (Hcommitted 5); [vm_compute; reflexivity | unfold FRAME_THRESHOLD; lia].
Defined.

Lemma nearest_identity_below_tolerance_witness :
  known_face_encodings session_AB <> [] /\
  store_ok session_AB /\
  let b := (1, 2, 3, 4) in
  let e := face_of_byte "010"%byte in
  let face_distances :=
    @face_distance stub_vision (known_face_encodings session_AB) e in
  exists i m s' entry,
    is_first_argmin face_distances i /\
    known_face_metadata session_AB !! i = Some m /\
    @process_detection stub_vision session_AB (b, e) = (s', Ok entry) /\
    Detected.distance entry
      = Some (@round stub_vision (nth i face_distances 0%Q) 2) /\
    Detected.bounding_box entry = scale_box b /\
    ((nth i face_distances 0 < TOLERANCE)%Q ->
       Detected.name entry = Metadata.name m /\
       student_frame_counts s' !! Metadata.id m
         = (fun n => n + 1) <$> student_frame_counts session_AB !! Metadata.id m) /\
    ((TOLERANCE <= nth i face_distances 0)%Q ->
       Detected.name entry = "Unknown" /\ s' = session_AB).
Proof.
  assert (Hne : known_face_encodings session_AB <> []) by (vm_compute; discriminate).
  assert (Hok : store_ok session_AB) by apply start_registration_store_ok.
  split; [exact Hne |]. split; [exact Hok |].
  exact (@nearest_identity_below_tolerance stub_vision session_AB
           (1, 2, 3, 4) (face_of_byte "010"%byte) Hne Hok).
Defined.

(** Before the first [start_registration] the store is empty. *)
Lemma empty_store_resolves_unknown_witness :
  let s := boot [row_A] [] in
  known_face_encodings s = [] /\
  (forall b e,
     @process_detection stub_vision s (b, e)
       = (s, Ok (Detected.mk "Unknown" None (scale_box b)))) /\
  (forall contents img,
     @imdecode stub_vision contents = Some img ->
     @process_frame stub_vision contents s
       = (s, Ok (DetectedResponse
                   (map (fun d => Detected.mk "Unknown" None (scale_box (fst d)))
                        (@locate_and_encode stub_vision img))))).
Proof.
  intros s. split; [reflexivity |].
  exact (@empty_store_resolves_unknown stub_vision s eq_refl).
Defined.

(** The upload of no bytes raises; the file that is not an image is
    answered with the decode error. *)
Lemma empty_upload_raises_witness :
  @process_frame stub_vision empty_upload session_AB
    = (session_AB, Raise CvError) /\
  @imdecode stub_vision frame_garbage = None /\
  frame_garbage <> [] /\
  @process_frame stub_vision frame_garbage session_AB
    = (session_AB, Ok (ErrorResponse "Error. Could not decode the image.")).
Proof.
  destruct (@empty_upload_raises stub_vision session_AB) as [Hempty Hnone].
  split; [exact Hempty |]. split; [reflexivity |]. split; [discriminate |].
  destruct (Hnone frame_garbage eq_refl) as [_ Herr].
  apply Herr. discriminate.
Defined.

Lemma frame_without_detections_witness :
  @imdecode stub_vision frame_empty = Some frame_empty /\
  @locate_and_encode stub_vision frame_empty = [] /\
  @process_frame stub_vision frame_empty session_AB
    = (session_AB, Ok (DetectedResponse [])) /\
  student_frame_counts (fst (@process_frame stub_vision frame_empty session_AB))
    = student_frame_counts session_AB /\
  attendance (fst (@process_frame stub_vision frame_empty session_AB))
    = attendance session_AB.
Proof.
  split; [reflexivity |]. split; [reflexivity |].
  exact (@frame_without_detections stub_vision frame_empty frame_empty
           session_AB eq_refl eq_refl).
Defined.

(** A shows in six of nine frames; its counter is at the threshold after the
    prefix holding five of them, and not after the whole sequence. *)
Lemma debounce_counter_counts_frames_witness :
  let frames := [frame_A; frame_B; frame_A; frame_garbage; frame_A; frame_A;
                 frame_empty; frame_A; frame_A] in
  is_Some (student_frame_counts session_AB !! "A") /\
  Forall (fun f => (@hits stub_vision "A" session_AB f <= 1)%nat) frames /\
  student_frame_counts (@run_frames stub_vision (take 8 frames) session_AB) !! "A"
    = Some FRAME_THRESHOLD /\
  student_frame_counts (@run_frames stub_vision (take 9 frames) session_AB) !! "A"
    = Some 6.
Proof.
  intros frames.
  assert (Hkey : is_Some (student_frame_counts session_AB !! "A"))
    by (exists 0; vm_compute; reflexivity).
  assert (Hall : Forall (fun f => (@hits stub_vision "A" session_AB f <= 1)%nat)
                        frames)
    by (repeat (constructor; [vm_compute; lia |]); constructor).
  split; [exact Hkey |]. split; [exact Hall |].
  destruct (@debounce_counter_counts_frames stub_vision
              (boot [row_A; row_B] [Registration.mk "A" "Ann"]) frames "A"
              Hkey Hall) as (Hprefix & _).
  split.
  - apply (Hprefix 8%nat). vm_compute. reflexivity.
  - destruct (Hprefix 9%nat) as [Hcount _].
    etrans; [exact Hcount | vm_compute; reflexivity].
Defined.

Lemma start_registration_resets_witness :
  let s := @run_frames stub_vision (replicate 6 frame_A) session_AB in
  let s' := fst (start_registration s) in
  start_registration s = (s', Ok (MessageResponse "Registration started.")) /\
  attendance s = [Registration.mk "A" "Ann"] /\
  attendance s' = [] /\
  student_frame_counts s' !! "A" = Some 0 /\
  student_frame_counts (fst (@process_frame stub_vision frame_A s')) !! "A"
    = Some 1.
Proof.
  intros s s'.
  assert (Hstart : start_registration s
                   = (s', Ok (MessageResponse "Registration started.")))
    by (vm_compute; reflexivity).
  destruct (@start_registration_resets stub_vision s s' _ Hstart)
    as (_ & _ & _ & Hcounts & Hatt & _ & Hfresh).
  split; [exact Hstart |]. split; [vm_compute; reflexivity |].
  split; [exact Hatt |]. split.
  - rewrite Hcounts. vm_compute. reflexivity.
  - rewrite (Hfresh "A" frame_A) by (vm_compute; repeat constructor).
    vm_compute. reflexivity.
Defined.

(** The fifth frame for A meets a table that already holds a row for A: the
    insert fails, the table keeps its single row, the answer is the usual
    one. *)
Lemma failed_insert_is_absorbed_witness :
  store_ok conflict_state /\
  @imdecode stub_vision frame_A = Some frame_A /\
  insert_registration (Registration.mk "A" "Ann") (attendance conflict_state)
    = None /\
  @process_detection stub_vision conflict_state
     ((1, 2, 3, 4), face_of_byte "010"%byte)
    = (set_counts (<["A" := 5]> (student_frame_counts conflict_state))
                  conflict_state,
       Ok (Detected.mk "Ann" (Some 0.10%Q) (4, 8, 12, 16))) /\
  exists entries,
    length entries = 1%nat /\
    forall tbl,
      snd (@process_frame stub_vision frame_A (set_attendance tbl conflict_state))
        = Ok (DetectedResponse entries).
Proof.
  assert (Hok : store_ok conflict_state).
  { change (store_ok (@run_frames stub_vision (replicate 4 frame_A) session_AB)).
    apply run_frames_store_ok, start_registration_store_ok. }
  assert (Hins : insert_registration (Registration.mk "A" "Ann")
                   (attendance conflict_state) = None) by reflexivity.
  destruct (@failed_insert_is_absorbed stub_vision conflict_state frame_A
              frame_A Hok eq_refl) as ((entries & Hlen & Hany) & Hfail).
  split; [exact Hok |]. split; [reflexivity |]. split; [exact Hins |]. split.
  - apply (Hfail (1, 2, 3, 4) (face_of_byte "010"%byte) 0%nat
                 (Metadata.mk "Ann" "A") 4);
      solve [vm_compute; reflexivity | exact Hins].
  - exists entries. split; [exact Hlen |]. intros tbl. apply Hany.
Defined.

(** C7, as stated, fails: an 8-byte embedding, where 1024 bytes are
    expected, neither aborts the load nor is left out of the store. *)
Lemma short_embedding_is_loaded : ~ width_fault_policy (boot [short_row] []).
Proof.
  intros Hpolicy.
  destruct (Hpolicy short_row) as [Habort | Hskip].
  - apply list_elem_of_here.
  - vm_compute. discriminate.
  - vm_compute in Habort. discriminate.
  - apply Hskip. vm_compute. apply list_elem_of_here.
Qed.

Lemma load_checks_element_size_only_witness :
  (let s := boot [row_A; short_row] [] in
   snd (start_registration s) = Ok (MessageResponse "Registration started.") /\
   known_face_metadata (fst (start_registration s))
     = [Metadata.mk "Ann" "A"; Metadata.mk "Cy" "C"]) /\
  (let s := boot [row_A; odd_row; row_B] [] in
   snd (start_registration s) = Raise ValueError /\
   known_face_metadata (fst (start_registration s)) = [Metadata.mk "Ann" "A"]).
Proof.
  split; intros s.
  - destruct (load_checks_element_size_only s) as [Hall _].
    destruct Hall as (Hr & Hm & _).
    + repeat (constructor; [vm_compute; reflexivity |]). constructor.
    + split; [exact Hr | exact Hm].
  - destruct (load_checks_element_size_only s) as [_ Habort].
    destruct (Habort [row_A] odd_row [row_B]) as (Hr & Hm & _).
    + reflexivity.
    + repeat (constructor; [vm_compute; reflexivity |]). constructor.
    + vm_compute. discriminate.
    + split; [exact Hr | exact Hm].
Defined.

Lemma reachable_store_invariant_witness :
  let s := fst (@endpoint stub_vision (ProcessFrame frame_A)
             (fst (@endpoint stub_vision StartRegistration
                (fst (@endpoint stub_vision (AddStudent "Bob" "B" ["200"%byte])
                        (boot [row_A] [])))))) in
  @reachable stub_vision s /\
  length (known_face_encodings s) = length (known_face_metadata s) /\
  (forall m, m ∈ known_face_metadata s ->
             is_Some (student_frame_counts s !! Metadata.id m)) /\
  (forall e i, @best_match stub_vision s e = Some i ->
     exists m n, known_face_metadata s !! i = Some m /\
                 student_frame_counts s !! Metadata.id m = Some n) /\
  (forall contents,
     snd (@process_frame stub_vision contents s) <> Raise IndexError /\
     forall key, snd (@process_frame stub_vision contents s) <> Raise (KeyError key)).
Proof.
  intros s.
  assert (Hreach : @reachable stub_vision s)
    by (do 3 apply reachable_call; apply reachable_boot).
  split; [exact Hreach |].
  exact (@reachable_store_invariant stub_vision s Hreach).
Defined.

(** * The endpoints taken together *)

Section Composition.
Context {V : Vision}.

(** ** The students table is not read by a frame *)

Lemma process_detection_set_students (tbl : list Student.t) (s : state)
  (d : box * ndarray) :
  process_detection (set_students tbl s) d
    = (set_students tbl (fst (process_detection s d)),
       snd (process_detection s d)).
Proof.
  destruct d as [b e].
  assert (Hb : best_match (set_students tbl s) e = best_match s e)
    by (by apply best_match_store).
  destruct (best_match s e) as [i|] eqn:Eb.
  - rewrite (process_detection_matched _ b e i Hb),
            (process_detection_matched s b e i Eb).
    change (known_face_metadata (set_students tbl s)) with (known_face_metadata s).
    change (student_frame_counts (set_students tbl s)) with (student_frame_counts s).
    change (known_face_encodings (set_students tbl s)) with (known_face_encodings s).
    destruct (known_face_metadata s !! i) as [m|]; [| done].
    destruct (student_frame_counts s !! Metadata.id m) as [n|]; [| done].
    cbn zeta. destruct (n + 1 =? FRAME_THRESHOLD)%Z; [| done].
    change (attendance (set_counts ?c (set_students tbl s)))
      with (attendance (set_counts c s)).
    by destruct (insert_registration _ _).
  - destruct (process_detection_unmatched _ b e Hb) as (d1 & -> & H1 & H1').
    destruct (process_detection_unmatched s b e Eb) as (d2 & -> & H2 & H2').
    change (known_face_encodings (set_students tbl s))
      with (known_face_encodings s) in H1, H1'.
    simpl. destruct (known_face_encodings s) as [|k ks] eqn:Ek.
    + by rewrite H1, H2.
    + by rewrite H1', H2'.
Qed.

Lemma process_detections_set_students (tbl : list Student.t) (s : state)
  (ds : list (box * ndarray)) :
  process_detections (set_students tbl s) ds
    = (set_students tbl (fst (process_detections s ds)),
       snd (process_detections s ds)).
Proof.
  revert s. induction ds as [|d ds IH]; intros s; [done |].
  cbn [process_detections]. rewrite process_detection_set_students.
  destruct (process_detection s d) as [s1 [entry|ex]]; [| done].
  cbn [fst snd]. rewrite IH.
  by destruct (process_detections s1 ds) as [s2 [entries|ex]].
Qed.

Lemma process_frame_set_students (tbl : list Student.t) (f : list byte)
  (s : state) :
  process_frame f (set_students tbl s)
    = (set_students tbl (fst (process_frame f s)), snd (process_frame f s)).
Proof.
  unfold process_frame. destruct (cv2_imdecode f) as [[img|]|ex]; [| done | done].
  rewrite process_detections_set_students.
  by destruct (process_detections s (locate_and_encode img)) as [s' [l|ex]].
Qed.

Lemma run_frames_set_students (tbl : list Student.t) (frames : list (list byte))
  (s : state) :
  run_frames frames (set_students tbl s) = set_students tbl (run_frames frames s).
Proof.
  revert s. induction frames as [|f frames IH]; intros s; [done |].
  rewrite !run_frames_cons, process_frame_set_students. cbn [fst]. apply IH.
Qed.

Lemma set_students_same (s : state) : set_students (students s) s = s.
Proof. by destruct s. Qed.

(** An enrolment call rewrites at most the students table. *)
Lemma enrolment_call_set_students (c : call) (s : state) :
  is_enrolment_call c = true ->
  fst (endpoint c s) = set_students (students (fst (endpoint c s))) s.
Proof.
  destruct c as [n i f | i | | f]; try discriminate; intros _; cbn [endpoint].
  - unfold add_student. destruct (cv2_imdecode f) as [[img|]|ex];
      [| by rewrite set_students_same ..].
    destruct (face_encodings img) as [|enc encs];
      [by rewrite set_students_same |].
    destruct (insert_student _ _); [done | by rewrite set_students_same].
  - unfold delete_student.
    destruct (find _ _); [done | by rewrite set_students_same].
Qed.

(** X1. Adding or deleting a student writes the students table only, and
    the frames that follow are answered, counted and recorded exactly as if
    the call had not been made: an enrolment or removal reaches recognition
    at the next [start_registration], not before. *)
Theorem enrolment_waits_for_next_session
  (c : call) (frames : list (list byte)) (f : list byte) (s : state) :
  is_enrolment_call c = true ->
  let s1 := fst (endpoint c s) in
  student_frame_counts s1 = student_frame_counts s /\
  known_face_encodings s1 = known_face_encodings s /\
  known_face_metadata s1 = known_face_metadata s /\
  attendance s1 = attendance s /\
  snd (process_frame f (run_frames frames s1))
    = snd (process_frame f (run_frames frames s)) /\
  student_frame_counts (run_frames frames s1)
    = student_frame_counts (run_frames frames s) /\
  attendance (run_frames frames s1) = attendance (run_frames frames s).
Proof.
  intros Hc s1. subst s1. rewrite (enrolment_call_set_students c s Hc).
  generalize (students (fst (endpoint c s))). intros tbl.
  rewrite run_frames_set_students, process_frame_set_students. done.
Qed.

(** ** The unique constraints *)

Lemma existsb_student_id (sid : string) (tbl : list Student.t) :
  existsb (fun r => String.eqb (Student.student_id r) sid) tbl = true
  <-> sid ∈ map Student.student_id tbl.
Proof.
  rewrite existsb_exists, list_elem_of_In, in_map_iff.
  split; intros (r & H1 & H2); exists r.
  - apply String.eqb_eq in H2. done.
  - split; [done |]. by apply String.eqb_eq.
Qed.

Lemma existsb_registration_id (sid : string) (tbl : list Registration.t) :
  existsb (fun r => String.eqb (Registration.student_id r) sid) tbl = true
  <-> sid ∈ map Registration.student_id tbl.
Proof.
  rewrite existsb_exists, list_elem_of_In, in_map_iff.
  split; intros (r & H1 & H2); exists r.
  - apply String.eqb_eq in H2. done.
  - split; [done |]. by apply String.eqb_eq.
Qed.

Lemma NoDup_snoc_fresh (l : list string) (x : string) :
  NoDup l -> x ∉ l -> NoDup (l ++ [x]).
Proof.
  intros Hl Hx. apply NoDup_app. split; [done |].
  split; [| apply NoDup_singleton].
  intros y Hy Hy'. apply list_elem_of_singleton in Hy'. by subst.
Qed.

Lemma insert_student_unique (r : Student.t) (tbl tbl' : list Student.t) :
  NoDup (map Student.student_id tbl) ->
  insert_student r tbl = Some tbl' ->
  NoDup (map Student.student_id tbl').
Proof.
  unfold insert_student. intros Hnd.
  destruct (existsb _ tbl) eqn:E; [discriminate | intros [= <-]].
  rewrite map_app. apply NoDup_snoc_fresh; [done |].
  intros Hin. apply existsb_student_id in Hin. congruence.
Qed.

Lemma insert_registration_unique (r : Registration.t)
  (tbl tbl' : list Registration.t) :
  NoDup (map Registration.student_id tbl) ->
  insert_registration r tbl = Some tbl' ->
  NoDup (map Registration.student_id tbl').
Proof.
  unfold insert_registration. intros Hnd.
  destruct (existsb _ tbl) eqn:E; [discriminate | intros [= <-]].
  rewrite map_app. apply NoDup_snoc_fresh; [done |].
  intros Hin. apply existsb_registration_id in Hin. congruence.
Qed.

(** With distinct ids, deleting the first row of an id deletes the id. *)
Lemma delete_first_unique (sid : string) (tbl : list Student.t) :
  NoDup (map Student.student_id tbl) ->
  delete_first sid tbl
    = List.filter (fun r => negb (String.eqb (Student.student_id r) sid)) tbl.
Proof.
  induction tbl as [|r tbl IH]; [done |]. simpl. intros Hnd.
  apply NoDup_cons in Hnd as [Hr Hnd].
  destruct (String.eqb_spec (Student.student_id r) sid) as [<- | Hne]; simpl.
  - clear IH. induction tbl as [|r' tbl IH]; [done |]. simpl in *.
    apply not_elem_of_cons in Hr as [Hne Hr]. apply NoDup_cons in Hnd as [_ Hnd].
    destruct (String.eqb_spec (Student.student_id r') (Student.student_id r));
      [congruence |].
    simpl. f_equal. by apply IH.
  - f_equal. by apply IH.
Qed.

Lemma filter_ids_unique (sid : string) (tbl : list Student.t) :
  NoDup (map Student.student_id tbl) ->
  NoDup (map Student.student_id
           (List.filter (fun r => negb (String.eqb (Student.student_id r) sid)) tbl)).
Proof.
  induction tbl as [|r tbl IH]; [done |]. simpl. intros Hnd.
  apply NoDup_cons in Hnd as [Hr Hnd].
  destruct (negb _); [| by apply IH]. simpl. apply NoDup_cons. split; [| by apply IH].
  intros Hin. apply Hr.
  apply list_elem_of_In, in_map_iff in Hin as (r' & Hid & Hin).
  apply filter_In in Hin as [Hin _].
  apply list_elem_of_In, in_map_iff. by exists r'.
Qed.

Lemma process_detection_unique_attendance (s : state) (d : box * ndarray) :
  unique_attendance_ids s -> unique_attendance_ids (fst (process_detection s d)).
Proof.
  unfold unique_attendance_ids. intros Hnd. destruct d as [b e].
  destruct (best_match s e) as [i|] eqn:Eb.
  2:{ by destruct (process_detection_unmatched s b e Eb) as (dist & -> & _). }
  rewrite (process_detection_matched s b e i Eb).
  destruct (known_face_metadata s !! i) as [m|]; [| done].
  destruct (student_frame_counts s !! Metadata.id m) as [n|]; [| done].
  cbn zeta. destruct (n + 1 =? FRAME_THRESHOLD)%Z; [| done].
  change (attendance (set_counts _ s)) with (attendance s).
  destruct (insert_registration _ (attendance s)) as [tbl|] eqn:E; [| done].
  simpl. by eapply insert_registration_unique.
Qed.

Lemma process_detections_unique_attendance (s : state) (ds : list (box * ndarray)) :
  unique_attendance_ids s -> unique_attendance_ids (fst (process_detections s ds)).
Proof.
  revert s. induction ds as [|d ds IH]; intros s Hnd; [done |].
  cbn [process_detections].
  pose proof (process_detection_unique_attendance s d Hnd) as H1.
  destruct (process_detection s d) as [s1 [entry|ex]]; [| done].
  specialize (IH s1 H1).
  by destruct (process_detections s1 ds) as [s2 [entries|ex]].
Qed.

Lemma process_frame_unique_attendance (f : list byte) (s : state) :
  unique_attendance_ids s -> unique_attendance_ids (fst (process_frame f s)).
Proof.
  intros Hnd. unfold process_frame. destruct (cv2_imdecode f) as [[img|]|ex]; [| done | done].
  pose proof (process_detections_unique_attendance s (locate_and_encode img) Hnd).
  by destruct (process_detections s (locate_and_encode img)) as [s' [l|ex]].
Qed.

Lemma endpoint_unique_ids (c : call) (s : state) :
  unique_student_ids s -> unique_attendance_ids s ->
  unique_student_ids (fst (endpoint c s)) /\
  unique_attendance_ids (fst (endpoint c s)).
Proof.
  unfold unique_student_ids. intros Hs Ha.
  destruct c as [n i f | i | | f]; simpl.
  - unfold add_student. destruct (cv2_imdecode f) as [[img|]|ex]; [| done | done].
    destruct (face_encodings img) as [|enc encs]; [done |].
    destruct (insert_student _ _) as [tbl|] eqn:E; [| done].
    split; [| done]. simpl. by eapply insert_student_unique.
  - unfold delete_student. destruct (find _ _); [| done].
    split; [| done]. simpl. rewrite delete_first_unique by done.
    by apply filter_ids_unique.
  - destruct (start_registration_spec s)
      as (loaded & encs & _ & _ & _ & _ & Hst & Hatt & _).
    unfold unique_attendance_ids. rewrite Hst, Hatt.
    split; [done | constructor].
  - destruct (process_frame_store f s) as (_ & _ & Hst). rewrite Hst.
    split; [done | by apply process_frame_unique_attendance].
Qed.

(** X2. The two unique constraints hold after every sequence of calls: no
    student id is stored twice, and no id is listed twice in the attendance
    table. *)
Theorem tables_keep_unique_ids (calls : list call) (s : state) :
  unique_student_ids s -> unique_attendance_ids s ->
  unique_student_ids (run_calls calls s) /\
  unique_attendance_ids (run_calls calls s).
Proof.
  revert s. induction calls as [|c calls IH]; intros s Hs Ha; [done |].
  destruct (endpoint_unique_ids c s Hs Ha) as [Hs' Ha'].
  exact (IH _ Hs' Ha').
Qed.

(** ** Enrolment *)

(** X3. An upload is judged by its image first.  A file of no bytes raises
    [cv2.error]; a file whose bytes do not decode, or an image without a
    face, is answered with the error message, whatever the id; with a face
    in it, an id already stored raises [IntegrityError].  In all four cases
    the state is left as it was. *)
Theorem rejected_enrolment_changes_nothing
  (student_name student_id : string) (contents : list byte) (s : state) :
  (contents = [] ->
   add_student student_name student_id contents s = (s, Raise CvError)) /\
  (contents <> [] -> imdecode contents = None ->
   add_student student_name student_id contents s
     = (s, Ok (ErrorResponse "Error. Could not decode the image."))) /\
  (forall img, imdecode contents = Some img -> face_encodings img = [] ->
   add_student student_name student_id contents s
     = (s, Ok (ErrorResponse "Error. No face found in the image."))) /\
  (forall img, imdecode contents = Some img -> face_encodings img <> [] ->
   student_id ∈ map Student.student_id (students s) ->
   add_student student_name student_id contents s = (s, Raise IntegrityError)).
Proof.
  unfold add_student. split; [| split; [| split]].
  - by intros ->.
  - intros Hne Hnone. by rewrite (cv2_imdecode_None _ Hne Hnone).
  - intros img Hd Hnoface. by rewrite (cv2_imdecode_Some _ _ Hd), Hnoface.
  - intros img Hd Hfaces Hdup. rewrite (cv2_imdecode_Some _ _ Hd).
    destruct (face_encodings img) as [|enc encs]; [done |].
    unfold insert_student. cbn [Student.student_id].
    apply existsb_student_id in Hdup. by rewrite Hdup.
Qed.

Lemma load_students_decoded (rows : list Student.t) (encs : list ndarray) :
  forall s,
    Forall2 (fun st e => frombuffer (Student.encoding_binary st) = Some e) rows encs ->
    load_students rows s
      = (mkState
           (fold_left (fun m st => <[Student.student_id st := 0]> m) rows
                      (student_frame_counts s))
           (known_face_encodings s ++ encs)
           (known_face_metadata s ++ map metadata_of rows)
           (students s) (attendance s),
         Ok tt).
Proof.
  intros s HF. revert s.
  induction HF as [|st e rows encs He HF IH]; intros s; simpl.
  - rewrite !app_nil_r. by destruct s.
  - rewrite He, IH. simpl. by rewrite <- !app_assoc.
Qed.

(** X4. An enrolment round trip. When the rows already stored decode, a
    student added with a fresh id is stored with the bytes of the first face
    of the image, and the next [start_registration] brings that very
    encoding back, last in the store, under the uploaded name and id, with
    the counter at 0. *)
Theorem enrolled_face_is_restored
  (student_name student_id : string) (contents : list byte) (img : image)
  (enc : ndarray) (others encs : list ndarray) (s : state) :
  imdecode contents = Some img ->
  face_encodings img = enc :: others ->
  student_id ∉ map Student.student_id (students s) ->
  Forall2 (fun st e => frombuffer (Student.encoding_binary st) = Some e)
          (students s) encs ->
  let s1 := fst (add_student student_name student_id contents s) in
  let s2 := fst (start_registration s1) in
  students s1
    = students s ++ [Student.mk student_id student_name (tobytes enc)] /\
  snd (start_registration s1) = Ok (MessageResponse "Registration started.") /\
  known_face_encodings s2 = encs ++ [enc] /\
  known_face_metadata s2
    = map metadata_of (students s) ++ [Metadata.mk student_name student_id] /\
  student_frame_counts s2 !! student_id = Some 0.
Proof.
  intros Hd Hfaces Hfresh HF s1 s2.
  assert (Hs1 : students s1
                = students s ++ [Student.mk student_id student_name (tobytes enc)]).
  { subst s1. unfold add_student. rewrite (cv2_imdecode_Some _ _ Hd), Hfaces.
    unfold insert_student. cbn [Student.student_id].
    destruct (existsb _ (students s)) eqn:E; [| done].
    apply existsb_student_id in E. contradiction. }
  assert (HF1 : Forall2 (fun st e => frombuffer (Student.encoding_binary st) = Some e)
                        (students s1) (encs ++ [enc])).
  { rewrite Hs1. apply Forall2_app; [done |].
    constructor; [apply frombuffer_tobytes | constructor]. }
  split; [exact Hs1 |].
  subst s2. unfold start_registration. cbn zeta. cbn [students].
  rewrite (load_students_decoded _ _ _ HF1). cbn [fst snd].
  cbn [known_face_encodings known_face_metadata student_frame_counts].
  split; [done |]. split; [done |]. split.
  - rewrite Hs1, map_app. done.
  - rewrite Hs1, fold_left_app. simpl. apply lookup_insert_eq.
Qed.

(** ** Removal *)

Lemma find_student_None (sid : string) (tbl : list Student.t) :
  find (fun r => String.eqb (Student.student_id r) sid) tbl = None
  <-> sid ∉ map Student.student_id tbl.
Proof.
  rewrite <- existsb_student_id. induction tbl as [|r tbl IH]; simpl; [done |].
  destruct (String.eqb (Student.student_id r) sid); simpl; [| exact IH].
  split; [discriminate | intros H; by destruct H].
Qed.

(** What [start_registration] loads comes from the students table. *)
Lemma start_registration_loaded_ids (s : state) :
  (forall m, m ∈ known_face_metadata (fst (start_registration s)) ->
             Metadata.id m ∈ map Student.student_id (students s)) /\
  (forall X, is_Some (student_frame_counts (fst (start_registration s)) !! X) ->
             X ∈ map Student.student_id (students s)).
Proof.
  destruct (start_registration_spec s)
    as (loaded & encs & _ & _ & Hm & Hc & _ & _ & Hr).
  assert (Hsub : forall X, X ∈ map Student.student_id loaded ->
                           X ∈ map Student.student_id (students s)).
  { destruct Hr as [[_ ->] | (_ & bad & rest & -> & _)]; [done |].
    intros X HX. rewrite map_app. apply elem_of_app. by left. }
  split.
  - intros m Hin. rewrite Hm in Hin. apply Hsub.
    apply list_elem_of_In, in_map_iff in Hin as (r & <- & Hr').
    apply list_elem_of_In, in_map_iff. by exists r.
  - intros X. rewrite Hc. case_decide; [intros _; by apply Hsub |].
    intros [? ?]. discriminate.
Qed.

Lemma matched_id_enrolled (s : state) (e : ndarray) (X : string) :
  matched_id s e = Some X ->
  exists m, m ∈ known_face_metadata s /\ Metadata.id m = X.
Proof.
  unfold matched_id. destruct (best_match s e) as [i|]; [| discriminate].
  destruct (known_face_metadata s !! i) as [m|] eqn:Em; [| discriminate].
  intros [= <-]. exists m. split; [| done]. by eapply list_elem_of_lookup_2.
Qed.

(** X5. Deleting a stored student (ids being distinct) removes every row of
    that id and no other row, and leaves the store, the counters and the
    attendance table alone.  After the next [start_registration] the id has
    no counter, no face resolves to it, and no frame records it. *)
Theorem removed_student_is_not_reloaded
  (sid : string) (frames : list (list byte)) (s : state) :
  unique_student_ids s ->
  sid ∈ map Student.student_id (students s) ->
  let s1 := fst (delete_student sid s) in
  let s2 := run_frames frames (fst (start_registration s1)) in
  snd (delete_student sid s)
    = Ok (MessageResponse ("Student " +:+ sid +:+ " removed successfully")) /\
  (forall r, r ∈ students s1 <-> r ∈ students s /\ Student.student_id r <> sid) /\
  attendance s1 = attendance s /\
  student_frame_counts s1 = student_frame_counts s /\
  student_frame_counts s2 !! sid = None /\
  (forall e, matched_id s2 e <> Some sid) /\
  records_of sid (attendance s2) = [].
Proof.
  intros Huniq Hin s1 s2.
  assert (Hfind : exists r, find (fun r => String.eqb (Student.student_id r) sid)
                                 (students s) = Some r).
  { destruct (find _ (students s)) as [r|] eqn:E; [by exists r |].
    apply find_student_None in E. contradiction. }
  destruct Hfind as [r0 Hfind].
  assert (Hs1 : students s1
                = List.filter (fun r => negb (String.eqb (Student.student_id r) sid))
                              (students s)).
  { subst s1. unfold delete_student. rewrite Hfind. simpl.
    by apply delete_first_unique. }
  assert (Hrows : forall r, r ∈ students s1
                            <-> r ∈ students s /\ Student.student_id r <> sid).
  { intros r. rewrite Hs1, !list_elem_of_In, filter_In, negb_true_iff.
    destruct (String.eqb_spec (Student.student_id r) sid); intuition congruence. }
  assert (Hgone : sid ∉ map Student.student_id (students s1)).
  { intros H. apply list_elem_of_In, in_map_iff in H as (r & Hid & Hr).
    apply list_elem_of_In, Hrows in Hr as [_ Hne]. contradiction. }
  destruct (start_registration_loaded_ids s1) as [Hmeta Hkeys].
  assert (Hnone : student_frame_counts s2 !! sid = None).
  { subst s2. pose proof (run_frames_counts_mono sid frames
                            (fst (start_registration s1))) as Hmono.
    destruct (student_frame_counts (fst (start_registration s1)) !! sid)
      as [n|] eqn:En; [| done].
    exfalso. apply Hgone, Hkeys. rewrite En. by eexists. }
  split; [subst s1; unfold delete_student; by rewrite Hfind |].
  split; [exact Hrows |].
  split; [subst s1; unfold delete_student; by rewrite Hfind |].
  split; [subst s1; unfold delete_student; by rewrite Hfind |].
  split; [exact Hnone |]. split.
  - intros e He. apply matched_id_enrolled in He as (m & Hm & Hid).
    subst s2. destruct (run_frames_store frames (fst (start_registration s1)))
      as (_ & Hmeta' & _).
    rewrite Hmeta' in Hm. apply Hgone. rewrite <- Hid. by apply Hmeta.
  - assert (Hatt : attendance_ok s2)
      by apply run_frames_attendance_ok, start_registration_attendance_ok.
    specialize (Hatt sid). rewrite Hnone in Hatt. by apply nil_length_inv.
Qed.

(** X6. Deleting an id that is not stored raises the 404 exception and
    leaves the state as it was, and this is the only way [delete_student]
    raises. *)
Theorem delete_unknown_student (sid : string) (s : state) :
  (sid ∉ map Student.student_id (students s) ->
   delete_student sid s = (s, Raise (HTTPException 404 "Student not found"))) /\
  (forall e, snd (delete_student sid s) = Raise e ->
             e = HTTPException 404 "Student not found" /\
             sid ∉ map Student.student_id (students s)).
Proof.
  unfold delete_student. split.
  - intros Hnot. apply find_student_None in Hnot. by rewrite Hnot.
  - intros e. destruct (find _ (students s)) eqn:E; [discriminate |].
    intros [= <-]. split; [done | by apply find_student_None].
Qed.

(** ** The attendance list *)

Lemma run_frames_unique_attendance (frames : list (list byte)) (s : state) :
  unique_attendance_ids s -> unique_attendance_ids (run_frames frames s).
Proof.
  revert s. induction frames as [|f frames IH]; intros s Hnd; [done |].
  rewrite run_frames_cons. by apply IH, process_frame_unique_attendance.
Qed.

Lemma records_of_nonempty (X : string) (tbl : list Registration.t) :
  X ∈ map Registration.student_id tbl <-> records_of X tbl <> [].
Proof.
  unfold records_of. induction tbl as [|r tbl IH]; simpl.
  - split; [intros H; by apply elem_of_nil in H | done].
  - rewrite filter_cons, elem_of_cons. case_decide as Hr.
    + split; [done | intros _; by left].
    + rewrite <- IH. split; [intros [? | ?]; [congruence | done] | by right].
Qed.

(** X7. In a session, [get_attendance] answers with the ids whose counter
    is at [FRAME_THRESHOLD] or beyond, each listed once, and leaves the state
    as it is. *)
Theorem attendance_lists_counters_at_threshold
  (s0 : state) (frames : list (list byte)) :
  let s := run_frames frames (fst (start_registration s0)) in
  exists ids,
    get_attendance s = (s, Ok (IdsResponse ids)) /\
    NoDup ids /\
    forall X, X ∈ ids <->
              exists n, student_frame_counts s !! X = Some n /\ FRAME_THRESHOLD <= n.
Proof.
  intros s. exists (map Registration.student_id (attendance s)).
  split; [reflexivity |]. split.
  - apply (run_frames_unique_attendance frames).
    unfold unique_attendance_ids.
    destruct (start_registration_spec s0) as (? & ? & _ & _ & _ & _ & _ & -> & _).
    constructor.
  - intros X. rewrite records_of_nonempty.
    assert (Hatt : attendance_ok s)
      by apply run_frames_attendance_ok, start_registration_attendance_ok.
    specialize (Hatt X). unfold FRAME_THRESHOLD in *.
    destruct (student_frame_counts s !! X) as [n|].
    + destruct (Z.leb_spec 5 n).
      * split; [intros _; by exists n |].
        intros _ Hnil. rewrite Hnil in Hatt. discriminate.
      * apply nil_length_inv in Hatt.
        split; [done | intros (n' & [= <-] & Hge); lia].
    + apply nil_length_inv in Hatt.
      split; [done | intros (n' & [=] & _)].
Qed.

Lemma process_detection_rows_enrolled (s : state) (d : box * ndarray) :
  rows_enrolled s -> rows_enrolled (fst (process_detection s d)).
Proof.
  intros Hrows. destruct d as [b e].
  destruct (best_match s e) as [i|] eqn:Eb.
  2:{ by destruct (process_detection_unmatched s b e Eb) as (dist & -> & _). }
  rewrite (process_detection_matched s b e i Eb).
  destruct (known_face_metadata s !! i) as [m|] eqn:Em; [| done].
  destruct (student_frame_counts s !! Metadata.id m) as [n|]; [| done].
  cbn zeta. destruct (n + 1 =? FRAME_THRESHOLD)%Z; [| done].
  unfold insert_registration.
  change (attendance (set_counts _ s)) with (attendance s).
  destruct (existsb _ (attendance s)); [done |].
  intros r Hr. simpl in Hr. apply elem_of_app in Hr as [Hr | Hr].
  - by apply Hrows.
  - apply list_elem_of_singleton in Hr as ->. simpl.
    destruct m. by eapply list_elem_of_lookup_2.
Qed.

Lemma process_frame_rows_enrolled (f : list byte) (s : state) :
  rows_enrolled s -> rows_enrolled (fst (process_frame f s)).
Proof.
  unfold process_frame. destruct (cv2_imdecode f) as [[img|]|ex]; [| done | done].
  generalize (locate_and_encode img). intros ds. revert s.
  induction ds as [|d ds IH]; intros s Hrows; [done |].
  cbn [process_detections].
  pose proof (process_detection_rows_enrolled s d Hrows) as H1.
  destruct (process_detection s d) as [s1 [entry|ex]]; [| done].
  specialize (IH s1 H1).
  by destruct (process_detections s1 ds) as [s2 [entries|ex]].
Qed.

(** X8. Every row recorded in a session carries the id and the name of one
    row that the students table held when the session was started. *)
Theorem recorded_rows_are_enrolled_students
  (s0 : state) (frames : list (list byte)) (r : Registration.t) :
  r ∈ attendance (run_frames frames (fst (start_registration s0))) ->
  exists st, st ∈ students s0 /\
             Student.student_id st = Registration.student_id r /\
             Student.student_name st = Registration.student_name r.
Proof.
  intros Hr.
  assert (Hrows : rows_enrolled (run_frames frames (fst (start_registration s0)))).
  { assert (H0 : rows_enrolled (fst (start_registration s0))).
    { intros r' Hr'.
      destruct (start_registration_spec s0) as (? & ? & _ & _ & _ & _ & _ & Ha & _).
      rewrite Ha in Hr'. by apply elem_of_nil in Hr'. }
    clear Hr. revert H0. generalize (fst (start_registration s0)).
    induction frames as [|f frames IH]; intros s Hs; [done |].
    rewrite run_frames_cons. by apply IH, process_frame_rows_enrolled. }
  specialize (Hrows r Hr).
  destruct (run_frames_store frames (fst (start_registration s0))) as (_ & Hm & _).
  rewrite Hm in Hrows.
  destruct (start_registration_spec s0)
    as (loaded & encs & _ & _ & Hmeta & _ & _ & _ & Hload).
  rewrite Hmeta in Hrows.
  apply list_elem_of_In, in_map_iff in Hrows as (st & Hst & Hin).
  exists st. injection Hst as Hname Hid. split; [| done].
  apply list_elem_of_In in Hin.
  destruct Hload as [[_ <-] | (_ & bad & rest & -> & _)]; [done |].
  apply elem_of_app. by left.
Qed.

(** ** The response of a frame *)

Lemma process_detection_entry (s s' : state) (d : box * ndarray)
  (entry : Detected.t) :
  process_detection s d = (s', Ok entry) -> entry_of s d entry.
Proof.
  destruct d as [b e]. unfold entry_of. cbn [fst].
  destruct (best_match s e) as [i|] eqn:Eb.
  - rewrite (process_detection_matched s b e i Eb).
    destruct (best_match_Some s e i Eb) as [(Hi & _) _].
    destruct (known_face_metadata s !! i) as [m|] eqn:Em; [| discriminate].
    destruct (student_frame_counts s !! Metadata.id m) as [n|]; [| discriminate].
    cbn zeta. intros [= _ <-]. simpl. split; [done |]. split.
    + split; [discriminate |]. intros Hnil.
      rewrite face_distance_length, Hnil in Hi. simpl in Hi. lia.
    + right. exists m. split; [by eapply list_elem_of_lookup_2 | done].
  - destruct (process_detection_unmatched s b e Eb) as (dist & -> & Hnone & Hsome).
    intros [= _ <-]. simpl. split; [done |]. split; [| by left].
    split; [| exact Hnone].
    intros ->. destruct (known_face_encodings s) as [|k ks]; [done |].
    by specialize (Hsome ltac:(discriminate)).
Qed.

Lemma entry_of_store (s s1 : state) (d : box * ndarray) (entry : Detected.t) :
  known_face_encodings s1 = known_face_encodings s ->
  known_face_metadata s1 = known_face_metadata s ->
  entry_of s1 d entry -> entry_of s d entry.
Proof. unfold entry_of. by intros -> ->. Qed.

(** X9. When a frame is answered with a [detected] list, the list has one
    entry per detection, in the detector's order: each carries its
    detection's box with the four edges multiplied by 4, a name that is
    "Unknown" or the name of an entry of the store, and a distance that is
    absent exactly when the store is empty. *)
Theorem detected_entries_follow_detections
  (contents : list byte) (img : image) (s s' : state)
  (entries : list Detected.t) :
  imdecode contents = Some img ->
  process_frame contents s = (s', Ok (DetectedResponse entries)) ->
  Forall2 (entry_of s) (locate_and_encode img) entries.
Proof.
  intros Hd. unfold process_frame. rewrite (cv2_imdecode_Some _ _ Hd).
  destruct (process_detections s (locate_and_encode img)) as [s2 [l|ex]] eqn:E;
    [| discriminate].
  intros [= _ <-]. revert s s2 l E.
  induction (locate_and_encode img) as [|d ds IH]; intros s s2 l.
  - intros [= _ <-]. constructor.
  - cbn [process_detections].
    destruct (process_detection_store s d) as (He & Hm & _).
    destruct (process_detection s d) as [s1 [entry|ex]] eqn:E1; [| discriminate].
    destruct (process_detections s1 ds) as [s3 [l'|ex]] eqn:E2; [| discriminate].
    intros [= _ <-]. constructor.
    + by eapply process_detection_entry.
    + eapply Forall2_impl; [by eapply IH |].
      intros d' entry'. simpl in He, Hm. by apply entry_of_store.
Qed.

(** ** Restarting and counting *)

(** X10. [start_registration] reads nothing but the students table, so
    starting twice in a row is the same as starting once: same answer, same
    state. *)
Theorem start_registration_twice (s : state) :
  start_registration (fst (start_registration s)) = start_registration s.
Proof.
  destruct (start_registration_spec s) as (? & ? & _ & _ & _ & _ & Hst & _).
  unfold start_registration at 1. cbn zeta. cbn [students]. rewrite Hst.
  reflexivity.
Qed.

(** X11. Frames never create or drop a counter: throughout a session the
    keys of the counter map are those set when it was started. *)
Theorem frames_keep_counter_keys (frames : list (list byte)) (s : state) :
  dom (student_frame_counts (run_frames frames s)) = dom (student_frame_counts s).
Proof.
  apply set_eq. intros X. rewrite !elem_of_dom.
  pose proof (run_frames_counts_mono X frames s) as H.
  destruct (student_frame_counts s !! X) as [n|].
  - destruct H as (n' & -> & _). split; by eexists.
  - rewrite H. done.
Qed.

(** X12. Detections of one identity are not merged within a frame: in a
    session, a frame with several faces of [X] advances the counter of [X]
    by their number, and, the threshold being tested at every single step,
    [X] has its one row as soon as the counter has reached or jumped past
    [FRAME_THRESHOLD]. *)
Theorem several_faces_of_one_identity
  (s0 : state) (frames : list (list byte)) (f : list byte) (X : string) (n : Z) :
  let s := run_frames frames (fst (start_registration s0)) in
  student_frame_counts s !! X = Some n ->
  student_frame_counts (fst (process_frame f s)) !! X
    = Some (n + Z.of_nat (hits X s f)) /\
  length (records_of X (attendance (fst (process_frame f s))))
    = (if FRAME_THRESHOLD <=? n + Z.of_nat (hits X s f) then 1%nat else 0%nat).
Proof.
  intros s Hn.
  assert (Hok : store_ok s)
    by apply run_frames_store_ok, start_registration_store_ok.
  assert (Hatt : attendance_ok s)
    by apply run_frames_attendance_ok, start_registration_attendance_ok.
  assert (Hc : student_frame_counts (fst (process_frame f s)) !! X
               = Some (n + Z.of_nat (hits X s f)))
    by (by rewrite (process_frame_counts X f s Hok), Hn).
  split; [exact Hc |].
  pose proof (process_frame_attendance_ok f s Hatt X) as H. by rewrite Hc in H.
Qed.

(** ** Listing *)

(** X13. [get_all_students] lists the id and name of every stored row, in
    table order, and changes nothing.  The ids it lists are those that
    [delete_student] accepts, and those that [add_student] refuses for an
    image with a face. *)
Theorem listed_students_are_the_stored_ids (s : state) :
  exists items,
    get_all_students s = (s, Ok (ListResponse items)) /\
    items = map (fun r => (Student.student_id r, Student.student_name r))
                (students s) /\
    (forall sid, sid ∈ map fst items
                 <-> is_ok (snd (delete_student sid s)) = true) /\
    (forall sid name contents img,
       imdecode contents = Some img -> face_encodings img <> [] ->
       (sid ∈ map fst items
        <-> snd (add_student name sid contents s) = Raise IntegrityError)).
Proof.
  eexists. split; [reflexivity |]. split; [reflexivity |].
  assert (Hids : map fst (map (fun r => (Student.student_id r, Student.student_name r))
                              (students s))
                 = map Student.student_id (students s))
    by (rewrite map_map; reflexivity).
  rewrite Hids. split.
  - intros sid. unfold delete_student.
    destruct (find _ (students s)) eqn:E; simpl.
    + split; [done | intros _].
      destruct (decide (sid ∈ map Student.student_id (students s))); [done |].
      apply find_student_None in n. congruence.
    + apply find_student_None in E. split; [done | discriminate].
  - intros sid name contents img Hd Hfaces. unfold add_student.
    rewrite (cv2_imdecode_Some _ _ Hd).
    destruct (face_encodings img) as [|enc encs]; [done |].
    unfold insert_student. cbn [Student.student_id].
    rewrite <- existsb_student_id.
    destruct (existsb _ (students s)); simpl; split; (done || discriminate).
Qed.

Lemma endpoint_attendance_prefix (c : call) (s : state) :
  c <> StartRegistration ->
  attendance s `prefix_of` attendance (fst (endpoint c s)).
Proof.
  intros Hc. destruct c as [n i f | i | | f]; [| | done |].
  - rewrite (enrolment_call_set_students (AddStudent n i f) s eq_refl). done.
  - rewrite (enrolment_call_set_students (DeleteStudent i) s eq_refl). done.
  - apply process_frame_attendance_prefix.
Qed.

(** X14. Until the next [start_registration] no call removes, rewrites or
    reorders an attendance row: the table before a sequence of other calls
    is a prefix of the table after it. *)
Theorem attendance_only_grows (calls : list call) (s : state) :
  Forall (fun c => c <> StartRegistration) calls ->
  attendance s `prefix_of` attendance (run_calls calls s).
Proof.
  intros Hall. revert s.
  induction Hall as [|c calls Hc _ IH]; intros s; [done |].
  etrans; [by apply (endpoint_attendance_prefix c) | apply IH].
Qed.

End Composition.

(** * The endpoints taken together, on the stand-in *)

(** Bob is deleted in mid-session: the next frame showing him is answered
    as before. *)
Lemma enrolment_waits_for_next_session_witness :
  is_enrolment_call (DeleteStudent "B") = true /\
  snd (@process_frame stub_vision frame_B
         (fst (@endpoint stub_vision (DeleteStudent "B") session_AB)))
    = Ok (DetectedResponse [Detected.mk "Bob" (Some 0.05%Q) (4, 8, 12, 16)]).
Proof.
  split; [reflexivity |].
  destruct (@enrolment_waits_for_next_session stub_vision (DeleteStudent "B")
              [] frame_B session_AB eq_refl) as (_ & _ & _ & _ & Hresp & _).
  etrans; [exact Hresp | vm_compute; reflexivity].
Defined.

Lemma tables_keep_unique_ids_witness :
  let s := boot [row_A; row_B] [] in
  let calls := [AddStudent "Eve" "E" portrait_E; AddStudent "Eva" "E" portrait_E;
                StartRegistration; ProcessFrame frame_crowd;
                ProcessFrame frame_crowd; DeleteStudent "A"] in
  unique_student_ids s /\ unique_attendance_ids s /\
  unique_student_ids (@run_calls stub_vision calls s) /\
  unique_attendance_ids (@run_calls stub_vision calls s).
Proof.
  intros s calls.
  assert (Hs : unique_student_ids s)
    by (apply (bool_decide_unpack _); vm_compute; exact I).
  assert (Ha : unique_attendance_ids s) by constructor.
  split; [exact Hs |]. split; [exact Ha |].
  exact (@tables_keep_unique_ids stub_vision calls s Hs Ha).
Defined.

Lemma rejected_enrolment_changes_nothing_witness :
  @add_student stub_vision "Ann" "A" empty_upload session_AB
    = (session_AB, Raise CvError) /\
  @add_student stub_vision "Ann" "A" frame_garbage session_AB
    = (session_AB, Ok (ErrorResponse "Error. Could not decode the image.")) /\
  @add_student stub_vision "Ann" "A" frame_empty session_AB
    = (session_AB, Ok (ErrorResponse "Error. No face found in the image.")) /\
  @add_student stub_vision "Ann" "A" portrait_E session_AB
    = (session_AB, Raise IntegrityError).
Proof.
  destruct (@rejected_enrolment_changes_nothing stub_vision "Ann" "A"
              empty_upload session_AB) as (Hraise & _).
  destruct (@rejected_enrolment_changes_nothing stub_vision "Ann" "A"
              frame_garbage session_AB) as (_ & Hdecode & _).
  destruct (@rejected_enrolment_changes_nothing stub_vision "Ann" "A"
              frame_empty session_AB) as (_ & _ & Hface & _).
  destruct (@rejected_enrolment_changes_nothing stub_vision "Ann" "A"
              portrait_E session_AB) as (_ & _ & _ & Hdup).
  split; [apply Hraise; reflexivity |].
  split; [apply Hdecode; [discriminate | reflexivity] |].
  split; [apply (Hface frame_empty); reflexivity |].
  apply (Hdup portrait_E); [reflexivity | vm_compute; discriminate |].
  vm_compute. apply list_elem_of_here.
Defined.

Lemma enrolled_face_is_restored_witness :
  let s := boot [row_A] [] in
  let s1 := fst (@add_student stub_vision "Eve" "E" portrait_E s) in
  let s2 := fst (start_registration s1) in
  @imdecode stub_vision portrait_E = Some portrait_E /\
  @face_encodings stub_vision portrait_E
    = [face_of_byte "050"%byte; face_of_byte "060"%byte] /\
  ("E" ∉ map Student.student_id (students s)) /\
  known_face_encodings s2 = [face_of_byte "000"%byte; face_of_byte "050"%byte] /\
  known_face_metadata s2 = [Metadata.mk "Ann" "A"; Metadata.mk "Eve" "E"] /\
  student_frame_counts s2 !! "E" = Some 0.
Proof.
  intros s s1 s2.
  assert (Hfresh : "E" ∉ map Student.student_id (students s))
    by (apply (bool_decide_unpack _); vm_compute; exact I).
  assert (HF : Forall2 (fun st e => frombuffer (Student.encoding_binary st) = Some e)
                       (students s) [face_of_byte "000"%byte])
    by (repeat constructor).
  destruct (@enrolled_face_is_restored stub_vision "Eve" "E" portrait_E portrait_E
              (face_of_byte "050"%byte) [face_of_byte "060"%byte]
              [face_of_byte "000"%byte] s eq_refl eq_refl Hfresh HF)
    as (_ & _ & Hencs & Hmeta & Hcount).
  split; [reflexivity |]. split; [reflexivity |]. split; [exact Hfresh |].
  split; [exact Hencs |]. split; [exact Hmeta | exact Hcount].
Defined.

Lemma removed_student_is_not_reloaded_witness :
  let s := @run_frames stub_vision (replicate 5 frame_A) session_AB in
  let s1 := fst (@delete_student "A" s) in
  let s2 := @run_frames stub_vision (replicate 6 frame_A)
              (fst (start_registration s1)) in
  unique_student_ids s /\
  "A" ∈ map Student.student_id (students s) /\
  attendance s1 = [Registration.mk "A" "Ann"] /\
  student_frame_counts s2 !! "A" = None /\
  records_of "A" (attendance s2) = [].
Proof.
  intros s s1 s2.
  assert (Hs : unique_student_ids s)
    by (apply (bool_decide_unpack _); vm_compute; exact I).
  assert (Hin : "A" ∈ map Student.student_id (students s))
    by (vm_compute; apply list_elem_of_here).
  destruct (@removed_student_is_not_reloaded stub_vision "A"
              (replicate 6 frame_A) s Hs Hin)
    as (_ & _ & Hatt & _ & Hnone & _ & Hrec).
  split; [exact Hs |]. split; [exact Hin |].
  split; [etrans; [exact Hatt | vm_compute; reflexivity] |].
  split; [exact Hnone | exact Hrec].
Defined.

Lemma delete_unknown_student_witness :
  ("Z" ∉ map Student.student_id (students session_AB)) /\
  delete_student "Z" session_AB
    = (session_AB, Raise (HTTPException 404 "Student not found")).
Proof.
  assert (Hnot : "Z" ∉ map Student.student_id (students session_AB))
    by (apply (bool_decide_unpack _); vm_compute; exact I).
  split; [exact Hnot |].
  destruct (delete_unknown_student "Z" session_AB) as [Hmissing _].
  exact (Hmissing Hnot).
Defined.

Lemma recorded_rows_are_enrolled_students_witness :
  let r := Registration.mk "A" "Ann" in
  let s0 := boot [row_A; row_B] [] in
  r ∈ attendance (@run_frames stub_vision (replicate 5 frame_A)
                    (fst (start_registration s0))) /\
  exists st, st ∈ students s0 /\
             Student.student_id st = "A" /\ Student.student_name st = "Ann".
Proof.
  intros r s0.
  assert (Hr : r ∈ attendance (@run_frames stub_vision (replicate 5 frame_A)
                                 (fst (start_registration s0))))
    by (vm_compute; apply list_elem_of_here).
  split; [exact Hr |].
  exact (@recorded_rows_are_enrolled_students stub_vision s0
           (replicate 5 frame_A) r Hr).
Defined.

Lemma detected_entries_follow_detections_witness :
  let entries := [Detected.mk "Ann" (Some 0.10%Q) (4, 8, 12, 16);
                  Detected.mk "Unknown" (Some 1.00%Q) (4, 8, 12, 16)] in
  let contents := ["010"%byte; "255"%byte; "100"%byte] in
  let s' := fst (@process_frame stub_vision contents session_AB) in
  @imdecode stub_vision contents = Some contents /\
  @process_frame stub_vision contents session_AB
    = (s', Ok (DetectedResponse entries)) /\
  Forall2 (entry_of session_AB) (@locate_and_encode stub_vision contents) entries.
Proof.
  intros entries contents s'.
  assert (Hp : @process_frame stub_vision contents session_AB
               = (s', Ok (DetectedResponse entries)))
    by (vm_compute; reflexivity).
  split; [reflexivity |]. split; [exact Hp |].
  exact (@detected_entries_follow_detections stub_vision contents contents
           session_AB s' entries eq_refl Hp).
Defined.

(** Two frames with A, then seven faces of A at once: the counter jumps from
    2 to 9 and A has its row. *)
Lemma several_faces_of_one_identity_witness :
  let s := @run_frames stub_vision [frame_A; frame_A] session_AB in
  student_frame_counts s !! "A" = Some 2 /\
  student_frame_counts (fst (@process_frame stub_vision frame_crowd s)) !! "A"
    = Some 9 /\
  length (records_of "A"
            (attendance (fst (@process_frame stub_vision frame_crowd s))))
    = 1%nat.
Proof.
  intros s.
  assert (Hn : student_frame_counts s !! "A" = Some 2) by (vm_compute; reflexivity).
  destruct (@several_faces_of_one_identity stub_vision
              (boot [row_A; row_B] [Registration.mk "A" "Ann"])
              [frame_A; frame_A] frame_crowd "A" 2 Hn) as [Hcount Hrows].
  split; [exact Hn |]. split.
  - etrans; [exact Hcount | vm_compute; reflexivity].
  - etrans; [exact Hrows | vm_compute; reflexivity].
Defined.

Lemma attendance_only_grows_witness :
  let s := @run_frames stub_vision (replicate 5 frame_A) session_AB in
  let calls := [DeleteStudent "A"; ProcessFrame frame_crowd;
                AddStudent "Eve" "E" portrait_E; ProcessFrame frame_B] in
  Forall (fun c => c <> StartRegistration) calls /\
  attendance s `prefix_of` attendance (@run_calls stub_vision calls s).
Proof.
  intros s calls.
  assert (Hall : Forall (fun c => c <> StartRegistration) calls)
    by (repeat (constructor; [discriminate |]); constructor).
  split; [exact Hall |].
  exact (@attendance_only_grows stub_vision calls s Hall).
Defined.
